(** * ContainerMonitor: the monitor lifecycle and the metric derivations

    A shallow embedding of [src/main.go], [src/container_monitor.go] and
    [src/structs.go].  Go values are modelled as follows:
    - [string] is a byte string, so [String.length] is Go's [len] and
      [s[0:12]] is defined exactly when [12 <= len s];
    - [uint64] and [int] are [Z];
    - [float64] is Rocq's primitive binary64 [float], and the conversion
      [float64(x)] of an integer rounds to nearest, ties to even;
    - [map[string]string] is [gmap string string];
    - a pointer to a monitor is a location of a store of monitor objects. *)

From Stdlib Require Import ZArith Floats Ascii.
From stdpp Require Import gmap strings list fin_maps.

Open Scope Z_scope.

(** ** Numeric conversions *)

(** [float64(x)] for an integer [x]. *)
Definition float64 (x : Z) : float :=
  SF2Prim (binary_normalize prec emax x 0 false).

(** ** [structs.go]: the statistic record

    The fields of docker's [types.CPUStats] and [types.MemoryStats] that the
    program reads. *)
Module types.
Record CPUUsage := { TotalUsage : Z; PercpuUsage : list Z }.
Record CPUStats := { CPUUsage_ : CPUUsage; SystemUsage : Z }.
Record MemoryStats := { Usage : Z; Limit : Z }.
End types.

Module Stat.
Record TContainerStatistic := {
  Id : string;
  Name : string;
  CPUStats : types.CPUStats;
  CPUStatsPre : types.CPUStats;
  MemoryStats : types.MemoryStats;
  Labels : gmap string string;
  RunningState : string
}.

Definition set_Labels (v : gmap string string) (s : TContainerStatistic) :=
  {| Id := Id s; Name := Name s; CPUStats := CPUStats s;
     CPUStatsPre := CPUStatsPre s; MemoryStats := MemoryStats s;
     Labels := v; RunningState := RunningState s |}.

Definition set_RunningState (v : string) (s : TContainerStatistic) :=
  {| Id := Id s; Name := Name s; CPUStats := CPUStats s;
     CPUStatsPre := CPUStatsPre s; MemoryStats := MemoryStats s;
     Labels := Labels s; RunningState := v |}.
End Stat.
Import Stat(TContainerStatistic).

(** ** Errors and results

    A Go [error] value: one made by [errors.New] or returned by a library with
    a message, the sentinel [io.EOF], or the registry's duplicate error. *)
Inductive error :=
| errors_New (msg : string)
| io_EOF
| AlreadyMonitored (id : string).

(** A Go pair [(value, err)] of which exactly one side is meaningful. *)
Inductive result (A : Type) :=
| ok (a : A)
| err (e : error).
Arguments ok {A} a.
Arguments err {A} e.

(** ** The option record of the capability interface *)
Module Opt.

(** A value of type [interface{}], as far as the program builds or inspects
    one. *)
Inductive any :=
| VString (s : string)
| VLabels (l : gmap string string)
| VInt (z : Z)
| VNil.

(** Modelled from the spec: the declaration of [TOpt] is not among the
    sources; it is the option of [SetOpt] and [GetOpt], a name with a value
    of any type, with the two fields the monitor fills in. *)
Record TOpt := { Name : string; Value : any }.
End Opt.
Import Opt(TOpt).

(** ** The docker client, as far as the monitor uses it

    A session handle records whether [Close] was called on it and the error
    its [Close] reports. *)
Record Client := { closed : bool; closeErr : option error }.

Definition Client_Close (c : Client) : Client * option error :=
  ({| closed := true; closeErr := closeErr c |}, closeErr c).

(** The part of [ContainerInspect]'s answer the program reads:
    [Config.Labels] and [State.Status]. *)
Record ContainerJSON := {
  Config_Labels : gmap string string;
  State_Status : string
}.

(** ** [container_monitor.go]: the monitor

    The two callback types of [structs.go] have one inhabitant each in this
    program, the handler [main] installs; a [nil] callback is [None]. *)
Inductive TClbOnStatistic := clb_containerStatisticRead.
Inductive TClbOnRemove := clb_containerStopped.

Record TContainerMonitor := {
  Id : string;
  Name : string;
  Labels : gmap string string;
  cli : option Client;
  stop : bool;
  OnStatRead : option TClbOnStatistic;
  OnRemove : option TClbOnRemove
}.

Definition set_Id (v : string) (m : TContainerMonitor) :=
  {| Id := v; Name := Name m; Labels := Labels m; cli := cli m;
     stop := stop m; OnStatRead := OnStatRead m; OnRemove := OnRemove m |}.

Definition set_Name (v : string) (m : TContainerMonitor) :=
  {| Id := Id m; Name := v; Labels := Labels m; cli := cli m;
     stop := stop m; OnStatRead := OnStatRead m; OnRemove := OnRemove m |}.

Definition set_Labels (v : gmap string string) (m : TContainerMonitor) :=
  {| Id := Id m; Name := Name m; Labels := v; cli := cli m;
     stop := stop m; OnStatRead := OnStatRead m; OnRemove := OnRemove m |}.

Definition set_cli (v : option Client) (m : TContainerMonitor) :=
  {| Id := Id m; Name := Name m; Labels := Labels m; cli := v;
     stop := stop m; OnStatRead := OnStatRead m; OnRemove := OnRemove m |}.

Definition set_stop (v : bool) (m : TContainerMonitor) :=
  {| Id := Id m; Name := Name m; Labels := Labels m; cli := cli m;
     stop := v; OnStatRead := OnStatRead m; OnRemove := OnRemove m |}.

(** What a monitor's code does that others observe: a log line with its
    error operand, the two callbacks, and the start of the read loop as a
    task of its own ([go m.readStream()]). *)
Inductive Event :=
| Log (text : string) (er : option error)
| CallOnStatRead (f : TClbOnStatistic) (stat : TContainerStatistic)
| CallOnRemove (f : TClbOnRemove) (id : string)
| GoReadStream.

(** A method with receiver [m *TContainerMonitor]: it reads and updates the
    monitor and leaves a trace of events. *)
Definition Task (A : Type) : Type :=
  TContainerMonitor -> A * TContainerMonitor * list Event.

#[global] Instance Task_ret : MRet Task := fun A a m => (a, m, []).

#[global] Instance Task_bind : MBind Task := fun A B k t m =>
  let '(a, m1, evs1) := t m in
  let '(b, m2, evs2) := k a m1 in
  (b, m2, evs1 ++ evs2).

Definition get : Task TContainerMonitor := fun m => (m, m, []).

Definition modify (f : TContainerMonitor -> TContainerMonitor) : Task unit :=
  fun m => (tt, f m, []).

Definition emit (evs : list Event) : Task unit := fun m => (tt, m, evs).

Definition SetOpt (opt : TOpt) : Task (option error) :=
  mret (Some (errors_New ("Unknown option: " ++ Opt.Name opt))).

Definition Stop : Task (option error) :=
  modify (set_stop true);;
  m ← get;
  match cli m with
  | None => mret None
  | Some c =>
      let '(c', er) := Client_Close c in
      modify (set_cli (Some c'));;
      mret er
  end.

(** What the docker daemon answers while a monitor starts: the outcome of
    [client.NewClientWithOpts] and of the first [ContainerInspect]. *)
Record StartEnv := {
  newClient : result Client;
  inspect0 : result ContainerJSON
}.

Definition init (env : StartEnv) : Task (option error) :=
  m ← get;
  if String.eqb (Id m) "" then
    mret (Some (errors_New "configuration error: container ID must be set"))
  else
    match newClient env with
    | err e => mret (Some e)
    | ok c =>
        modify (set_cli (Some c));;
        match inspect0 env with
        | err e => mret (Some e)
        | ok containerInfo =>
            modify (set_Labels (Config_Labels containerInfo));;
            mret None
        end
    end.

Definition Exec (env : StartEnv) : Task (option error) :=
  er ← init env;
  match er with
  | Some er => mret (Some er)
  | None =>
      modify (set_stop false);;
      emit [GoReadStream];;
      mret None
  end.

(** One tick of the read loop as the environment decides it: whether another
    task called [Stop] since the previous tick, what [decoder.Decode] yields
    and what [ContainerInspect] answers. *)
Record Tick := {
  stopRequested : bool;
  decoded : result TContainerStatistic;
  inspected : result ContainerJSON
}.

(** The outcome of [ContainerStats] and the ticks that follow.  The loop
    has no bound of its own: when the ticks run out it is still waiting. *)
Record StatsSession := {
  opened : option error;
  ticks : list Tick
}.

(** [Stop] as called by another task between two ticks. *)
Definition interleave (t : Tick) : Task unit :=
  if stopRequested t then Stop;; mret tt else mret tt.

(** [if m.OnRemove != nil { m.OnRemove(m.Id) }] *)
Definition notify_removed : Task unit :=
  m ← get;
  match OnRemove m with
  | Some f => emit [CallOnRemove f (Id m)]
  | None => mret tt
  end.

(** The part of a tick after both reads succeeded, the same in both
    revisions: merge the status, learn the name, attach the labels, call
    [OnStatRead]. *)
Definition publish (statistic : TContainerStatistic)
    (containerInspect : ContainerJSON) : Task unit :=
  let statistic :=
    Stat.set_RunningState (State_Status containerInspect) statistic in
  m ← get;
  (if String.eqb (Name m) ""
   then modify (set_Name (Stat.Name statistic)) else mret tt);;
  m ← get;
  let statistic := Stat.set_Labels (Labels m) statistic in
  match OnStatRead m with
  | Some f => emit [CallOnStatRead f statistic]
  | None => mret tt
  end.

(** *** First revision: ticker and deferred [OnRemove] *)
Module Rev1.

Definition GetOpt (name : string) : Task (option TOpt) :=
  m ← get;
  if String.eqb name "name" then
    mret (Some {| Opt.Name := "name"; Opt.Value := Opt.VString (Name m) |})
  else if String.eqb name "labels" then
    mret (Some {| Opt.Name := "labels";
                  Opt.Value := Opt.VLabels (Labels m) |})
  else mret None.

(** The [for]/[select] loop; the result tells whether it returned. *)
Fixpoint loop (ts : list Tick) : Task bool :=
  match ts with
  | [] => mret false
  | t :: ts =>
      interleave t;;
      m ← get;
      if stop m then mret true
      else
        match decoded t with
        | err er =>
            emit [Log "Error reading from input:" (Some er)];;
            mret true
        | ok statistic =>
            match inspected t with
            | err e =>
                emit [Log "Error inspecting container:" (Some e)];;
                mret true
            | ok containerInspect =>
                publish statistic containerInspect;;
                loop ts
            end
        end
  end.

(** The result tells whether [readStream] returned; the deferred function
    runs on every return that follows its [defer] statement. *)
Definition readStream (s : StatsSession) : Task bool :=
  match opened s with
  | Some e =>
      emit [Log "Error starting container statistic listening: " (Some e)];;
      mret true
  | None =>
      returned ← loop (ticks s);
      if (returned : bool) return Task bool
      then notify_removed;; mret true
      else mret false
  end.

End Rev1.

(** *** Second revision: sleep, [break] and a trailing [OnRemove] *)
Module Rev2.

Definition GetOpt (name : string) : Task (option TOpt) :=
  m ← get;
  if String.eqb name "name" then
    mret (Some {| Opt.Name := "name"; Opt.Value := Opt.VString (Name m) |})
  else if String.eqb name "labels" then
    mret (Some {| Opt.Name := "labels";
                  Opt.Value := Opt.VLabels (Labels m) |})
  else
    modify (set_Id "0");;
    modify (set_Name "");;
    mret None.

(** How the [for] loop was left, if it was. *)
Inductive Exit := Running | Break | Return.

Fixpoint loop (ts : list Tick) : Task Exit :=
  match ts with
  | [] => mret Running
  | t :: ts =>
      interleave t;;
      m ← get;
      if stop m then mret Break
      else
        match decoded t with
        | err er =>
            match er with
            | io_EOF => mret tt
            | _ => emit [Log "Error reading from input:" (Some er)]
            end;;
            modify (set_stop true);;
            mret Break
        | ok statistic =>
            match inspected t with
            | err e =>
                emit [Log "Error inspecting container:" (Some e)];;
                mret Return
            | ok containerInspect =>
                publish statistic containerInspect;;
                loop ts
            end
        end
  end.

Definition readStream (s : StatsSession) : Task bool :=
  match opened s with
  | Some e =>
      emit [Log "Error starting container statistic listening: " (Some e)];;
      mret true
  | None =>
      exit ← loop (ticks s);
      match exit with
      | Break => notify_removed;; mret true
      | Return => mret true
      | Running => mret false
      end
  end.

End Rev2.

(** The number of [OnRemove] invocations in a trace. *)
Definition is_removal (e : Event) : bool :=
  match e with CallOnRemove _ _ => true | _ => false end.

Definition removals (evs : list Event) : nat :=
  length (filter (fun e => is_removal e = true) evs).

(** ** The monitor registry [ThreadList]

    The registry maps a container id to a monitor handle, here the address
    of the monitor object. *)
Module ThreadList.

(** Modelled from the spec: the source of [ThreadList] is not among the
    sources.  [Exists(id) -> bool] (section 4.1). *)
Definition Exists (id : string) (reg : gmap string nat) : bool :=
  bool_decide (is_Some (reg !! id)).

(** Modelled from the spec: [Get(id) -> (handle, found)]: lookup, no
    mutation. *)
Definition Get (id : string) (reg : gmap string nat) : option nat :=
  reg !! id.

(** Modelled from the spec: [Put(id, handle) -> error]: inserts; fails with
    [AlreadyMonitored] if [id] already present; does not overwrite. *)
Definition Put (id : string) (handle : nat) (reg : gmap string nat)
  : gmap string nat * option error :=
  if Exists id reg then (reg, Some (AlreadyMonitored id))
  else (<[id := handle]> reg, None).

(** Modelled from the spec: [Del(id)]: removes if present; no-op
    otherwise. *)
Definition Del (id : string) (reg : gmap string nat) : gmap string nat :=
  delete id reg.

(** Modelled from the spec: [Keys() -> set of id]: snapshot of the current
    ids; [main] calls it [GetKeys]. *)
Definition GetKeys (reg : gmap string nat) : list string :=
  elements (dom reg).

End ThreadList.

(** ** The metric sink: prometheus gauge vectors

    A gauge vector is a finite map from label sets to values.
    [With(labels).Set(x)] writes one entry; [DeletePartialMatch(labels)]
    removes the entries whose label set contains [labels] and returns their
    number. *)
Inductive GaugeVec :=
| containersCount
| memUsageVec
| memLimitVec
| cpuUsageTotalVec
| cpuPercentage
| runningStats.

#[global] Instance GaugeVec_eq_dec : EqDecision GaugeVec.
Proof. solve_decision. Defined.

Definition matches (labels k : gmap string string) : bool :=
  forallb (fun '(n, v) => bool_decide (k !! n = Some v)) (map_to_list labels).

Definition DeletePartialMatch (labels : gmap string string)
    (g : gmap (gmap string string) float)
  : gmap (gmap string string) float * nat :=
  (filter (fun kv => matches labels (fst kv) = false) g,
   size (filter (fun kv => matches labels (fst kv) = true) g)).

(** ** The program state of [main.go]

    The monitor objects by address, the registry [statsThreads], the gauge
    vectors, and what the program printed or started, in order. *)
Inductive Output :=
| MainLog (text : string) (er : option error)
| At (th : nat) (e : Event).

Record World := {
  heap : gmap nat TContainerMonitor;
  statsThreads : gmap string nat;
  gauges : GaugeVec -> gmap (gmap string string) float;
  output : list Output
}.

Definition set_heap (v : gmap nat TContainerMonitor) (w : World) :=
  {| heap := v; statsThreads := statsThreads w; gauges := gauges w;
     output := output w |}.

Definition set_statsThreads (v : gmap string nat) (w : World) :=
  {| heap := heap w; statsThreads := v; gauges := gauges w;
     output := output w |}.

Definition set_gauges (v : GaugeVec -> gmap (gmap string string) float)
    (w : World) :=
  {| heap := heap w; statsThreads := statsThreads w; gauges := v;
     output := output w |}.

Definition set_output (v : list Output) (w : World) :=
  {| heap := heap w; statsThreads := statsThreads w; gauges := gauges w;
     output := v |}.

(** A function of [main.go]: it updates the program state, or panics. *)
Inductive Res (A : Type) :=
| Done (a : A)
| Panic (msg : string).
Arguments Done {A} a.
Arguments Panic {A} msg.

Definition Prog (A : Type) : Type := World -> Res (A * World).

#[global] Instance Prog_ret : MRet Prog := fun A a w => Done (a, w).

#[global] Instance Prog_bind : MBind Prog := fun A B k p w =>
  match p w with
  | Done (a, w') => k a w'
  | Panic msg => Panic msg
  end.

Definition getW : Prog World := fun w => Done (w, w).

Definition modifyW (f : World -> World) : Prog unit :=
  fun w => Done (tt, f w).

Definition panic {A : Type} (msg : string) : Prog A := fun _ => Panic msg.

Definition println (text : string) (er : option error) : Prog unit :=
  modifyW (fun w => set_output (output w ++ [MainLog text er]) w).

Fixpoint forEach {A : Type} (l : list A) (body : A -> Prog unit)
  : Prog unit :=
  match l with
  | [] => mret tt
  | x :: l => body x;; forEach l body
  end.

(** [s[0:hi]]: a run-time panic unless [hi <= len(s)]. *)
Definition slice (s : string) (hi : nat) : Prog string :=
  if Nat.leb hi (String.length s) then mret (String.substring 0 hi s)
  else panic "slice bounds out of range".

(** [strings.Replace(s, "/", "", 1)] *)
Fixpoint removeFirstSlash (s : string) : string :=
  match s with
  | EmptyString => EmptyString
  | String c s' =>
      if Ascii.eqb c "/"%char then s' else String c (removeFirstSlash s')
  end.

(** [new(TContainerMonitor)] followed by the assignments to its fields. *)
Definition new (m : TContainerMonitor) : Prog nat :=
  w ← getW;
  let th := fresh (dom (heap w)) in
  modifyW (set_heap (<[th := m]> (heap w)));;
  mret th.

(** A method call through a monitor pointer: the object is updated in place
    and the events of the call are appended to the output. *)
Definition call {A : Type} (th : nat) (method : Task A) : Prog A :=
  w ← getW;
  match heap w !! th with
  | None => panic "invalid memory address or nil pointer dereference"
  | Some m =>
      let '(a, m', evs) := method m in
      modifyW (fun w => set_output (output w ++ map (At th) evs)
                          (set_heap (<[th := m']> (heap w)) w));;
      mret a
  end.

Definition Gauge_Set (vec : GaugeVec) (labels : gmap string string)
    (x : float) : Prog unit :=
  modifyW (fun w =>
    set_gauges (fun v => if decide (v = vec)
                         then <[labels := x]> (gauges w v)
                         else gauges w v) w).

(** The two revisions of the monitor, as [main.go] is built with either. *)
Record Revision := {
  GetOpt : string -> Task (option TOpt);
  readStream : StatsSession -> Task bool
}.

Definition rev1 : Revision :=
  {| GetOpt := Rev1.GetOpt; readStream := Rev1.readStream |}.

Definition rev2 : Revision :=
  {| GetOpt := Rev2.GetOpt; readStream := Rev2.readStream |}.

(** A container of [ContainerList]'s answer, with what the daemon answers
    if a monitor is started for it. *)
Record Container := {
  ID : string;
  daemon : StartEnv
}.

(** ** [main.go]: metric derivations *)

Definition cpuDelta (stat : TContainerStatistic) : float :=
  (float64 (types.TotalUsage (types.CPUUsage_ (Stat.CPUStats stat)))
   - float64 (types.TotalUsage (types.CPUUsage_ (Stat.CPUStatsPre stat))))%float.

Definition systemDelta (stat : TContainerStatistic) : float :=
  (float64 (types.SystemUsage (Stat.CPUStats stat))
   - float64 (types.SystemUsage (Stat.CPUStatsPre stat)))%float.

Definition calculateCPUPercentUnix (stat : TContainerStatistic) : float :=
  let percpu := types.PercpuUsage (types.CPUUsage_ (Stat.CPUStats stat)) in
  if ((0 <? systemDelta stat) && (0 <? cpuDelta stat))%float then
    let cpuPercent := (cpuDelta stat / systemDelta stat * 100)%float in
    if (0 <? Z.of_nat (length percpu))
    then (cpuPercent * float64 (Z.of_nat (length percpu)))%float
    else cpuPercent
  else 0%float.

Definition stateToValue (state : string) : float :=
  if String.eqb state "created" then 0%float
  else if String.eqb state "running" then 1%float
  else if String.eqb state "paused" then 2%float
  else if String.eqb state "restarting" then 3%float
  else if String.eqb state "removing" then 4%float
  else if String.eqb state "exited" then 5%float
  else if String.eqb state "dead" then 6%float
  else (-1)%float.

Section Main.

(** [labelRegex.ReplaceAllLiteralString(_, "_")] for [labelRegex] compiled
    from ["[\\W-]"]. *)
Variable normalizeLabel : string -> string.

(** The fields of the setting:
    [strings.Split(strings.TrimSpace(os.Getenv("DOCKER_STATS_LABELS_SCRAPE")), ",")]. *)
Variable labelFields : list string.

(** The revision of the monitor the program is built with. *)
Variable rev : Revision.

Definition getLabels (normalize : bool) : list string :=
  let res :=
    map (fun lbl => if normalize then normalizeLabel lbl else lbl)
        (filter (fun lbl => lbl <> "") labelFields) in
  ["id"; "name"] ++ res.

Definition scrapeLabels : list string := getLabels false.

(** The loop of [containerStatisticRead] that builds the label set. *)
Fixpoint statLabels (names : list string) (stat : TContainerStatistic)
    (labels : gmap string string) : Prog (gmap string string) :=
  match names with
  | [] => mret labels
  | labelName :: names =>
      if String.eqb labelName "id" then
        id12 ← slice (Stat.Id stat) 12;
        statLabels names stat (<["id" := id12]> labels)
      else if String.eqb labelName "name" then
        statLabels names stat
          (<["name" := removeFirstSlash (Stat.Name stat)]> labels)
      else
        let promLabel := normalizeLabel labelName in
        statLabels names stat
          (<[promLabel := default "" (Stat.Labels stat !! labelName)]> labels)
  end.

Definition containerStatisticRead (stat : TContainerStatistic) : Prog unit :=
  labels ← statLabels scrapeLabels stat ∅;
  Gauge_Set memUsageVec labels
    (float64 (types.Usage (Stat.MemoryStats stat)));;
  Gauge_Set memLimitVec labels
    (float64 (types.Limit (Stat.MemoryStats stat)));;
  Gauge_Set cpuUsageTotalVec labels
    (float64 (types.TotalUsage (types.CPUUsage_ (Stat.CPUStats stat))));;
  Gauge_Set cpuPercentage labels (calculateCPUPercentUnix stat);;
  Gauge_Set runningStats labels (stateToValue (Stat.RunningState stat)).

(** The vectors are those [initMetrics] created: none of them is [nil]. *)
Definition deleteLabeledMetric (labels : gmap string string)
    (vectors : list GaugeVec) : Prog unit :=
  forEach vectors (fun vector =>
    w ← getW;
    let '(g, n) := DeletePartialMatch labels (gauges w vector) in
    modifyW (set_gauges (fun v => if decide (v = vector) then g
                                  else gauges w v));;
    if Nat.leb n 0
    then println "[WARN] Metric with labels hasn't been deleted:" None
    else mret tt).

Definition containerStopped (containerId : string) : Prog unit :=
  _ ← slice containerId 12;
  println "Stop container monitoring:" None;;
  w ← getW;
  match ThreadList.Get containerId (statsThreads w) with
  | None => println "Container with ID is not monitored:" None
  | Some thread =>
      er ← call thread Stop;
      match er with
      | Some er => println "Error stopping container monitor:" (Some er)
      | None => mret tt
      end;;
      modifyW (fun w =>
        set_statsThreads (ThreadList.Del containerId (statsThreads w)) w);;
      name ← call thread (GetOpt rev "name");
      match name with
      | Some {| Opt.Value := Opt.VString nameValue |} =>
          id12 ← slice containerId 12;
          let labels : gmap string string :=
            <["id" := id12]> (<["name" := removeFirstSlash nameValue]> ∅) in
          deleteLabeledMetric labels
            [memUsageVec; memLimitVec; cpuUsageTotalVec; cpuPercentage;
             runningStats]
      | Some _ => panic "interface conversion: interface {} is not string"
      | None => panic "invalid memory address or nil pointer dereference"
      end
  end.

(** The first inner loop of [main]'s cycle: start a monitor for a listed
    container that has none. *)
Definition startMonitor (cont : Container) : Prog unit :=
  w ← getW;
  if ThreadList.Exists (ID cont) (statsThreads w) then mret tt
  else
    mon ← new {| Id := ID cont; Name := ""; Labels := ∅; cli := None;
                 stop := false;
                 OnStatRead := Some clb_containerStatisticRead;
                 OnRemove := Some clb_containerStopped |};
    e ← call mon (Exec (daemon cont));
    match e with
    | Some e => println "Error executing container monitor:" (Some e)
    | None =>
        w ← getW;
        let '(reg, e) := ThreadList.Put (ID cont) mon (statsThreads w) in
        modifyW (set_statsThreads reg);;
        match e with
        | Some e => println "Error adding thread to list: " (Some e)
        | None => mret tt
        end;;
        _ ← slice (ID cont) 12;
        println "Start monitoring for container:" None
    end.

(** The second inner loop: stop the monitors of containers no longer
    listed. *)
Definition stopRemoved (containerList : list Container) (key : string)
  : Prog unit :=
  let present := existsb (fun cont => String.eqb (ID cont) key) containerList in
  if negb present then
    w ← getW;
    match ThreadList.Get key (statsThreads w) with
    | Some th =>
        er ← call th Stop;
        match er with
        | Some er => println "Error stopping container monitor:" (Some er)
        | None => mret tt
        end
    | None => mret tt
    end
  else mret tt.

(** One pass of [main]'s loop once the refresh interval has elapsed, given
    the answer of [ContainerList]. *)
Definition cycle (listed : result (list Container)) : Prog unit :=
  match listed with
  | err e => panic "Error getting container list"
  | ok containerList =>
      Gauge_Set containersCount ∅
        (float64 (Z.of_nat (length containerList)));;
      forEach containerList startMonitor;;
      w ← getW;
      forEach (ThreadList.GetKeys (statsThreads w)) (stopRemoved containerList)
  end.

(** A callback invocation of a monitor, run by the handler [main]
    installed. *)
Definition handle (e : Event) : Prog unit :=
  match e with
  | CallOnStatRead clb_containerStatisticRead stat =>
      containerStatisticRead stat
  | CallOnRemove clb_containerStopped id => containerStopped id
  | _ => mret tt
  end.

(** The read loop of the monitor at [th] as a task of the program: the
    callbacks run on the loop's own task, in the order of the trace. *)
Definition runReadStream (th : nat) (s : StatsSession) : Prog bool :=
  w ← getW;
  match heap w !! th with
  | None => panic "invalid memory address or nil pointer dereference"
  | Some m =>
      let '(returned, m', evs) := readStream rev s m in
      modifyW (fun w => set_output (output w ++ map (At th) evs)
                          (set_heap (<[th := m']> (heap w)) w));;
      forEach evs handle;;
      mret returned
  end.

End Main.

(** ** Derived notions used in the statements *)

(** The monitor after [Stop]: the flag set and the session closed. *)
Definition stopped (m : TContainerMonitor) : TContainerMonitor :=
  match cli m with
  | None => set_stop true m
  | Some c => set_cli (Some (fst (Client_Close c))) (set_stop true m)
  end.

(** A tick at which a loop that is still running leaves: a stop request, a
    failed decode (end of stream included) or a failed status query. *)
Definition ends (t : Tick) : bool :=
  stopRequested t ||
  match decoded t, inspected t with
  | ok _, ok _ => false
  | _, _ => true
  end.

(** How the second revision's loop is left at the first tick that ends
    it. *)
Definition Rev2_exit (ts : list Tick) : Rev2.Exit :=
  match List.find ends ts with
  | None => Rev2.Running
  | Some t =>
      if stopRequested t then Rev2.Break
      else match decoded t with
           | err _ => Rev2.Break
           | ok _ => Rev2.Return
           end
  end.

(** The event a monitor owes the sink when its loop is over. *)
Definition removal (m : TContainerMonitor) : list Event :=
  match OnRemove m with
  | Some f => [CallOnRemove f (Id m)]
  | None => []
  end.

(** What a cycle's first loop keeps: every registered handle and every
    monitor object. *)
Definition keeps (w w' : World) : Prop :=
  (forall id th, statsThreads w !! id = Some th ->
                 statsThreads w' !! id = Some th) /\
  (forall l m, heap w !! l = Some m -> heap w' !! l = Some m).

(** What a cycle's second loop does: the registry is as before and a
    monitor object is as before or stopped. *)
Definition stops (w w' : World) : Prop :=
  statsThreads w' = statsThreads w /\
  (forall l m, heap w !! l = Some m ->
               heap w' !! l = Some m \/ heap w' !! l = Some (stopped m)).

(** Every registered handle points to a monitor object. *)
Definition wf (w : World) : Prop :=
  forall id th, statsThreads w !! id = Some th -> is_Some (heap w !! th).

(** ** Sample inputs *)

(** A statistic with the given CPU accounting; the remaining fields do not
    enter the CPU percentage. *)
Definition cpuSample (total pre sys presys : Z) (percpu : list Z)
  : TContainerStatistic :=
  {| Stat.Id := ""; Stat.Name := "";
     Stat.CPUStats :=
       {| types.CPUUsage_ := {| types.TotalUsage := total;
                                types.PercpuUsage := percpu |};
          types.SystemUsage := sys |};
     Stat.CPUStatsPre :=
       {| types.CPUUsage_ := {| types.TotalUsage := pre;
                                types.PercpuUsage := [] |};
          types.SystemUsage := presys |};
     Stat.MemoryStats := {| types.Usage := 0; types.Limit := 0 |};
     Stat.Labels := ∅; Stat.RunningState := "" |}.

(** The monitor [main] constructs for a container. *)
Definition newMonitor (id : string) : TContainerMonitor :=
  {| Id := id; Name := ""; Labels := ∅; cli := None; stop := false;
     OnStatRead := Some clb_containerStatisticRead;
     OnRemove := Some clb_containerStopped |}.

Definition openClient : Client := {| closed := false; closeErr := None |}.

Definition webInfo : ContainerJSON :=
  {| Config_Labels := {["app" := "web"]}; State_Status := "running" |}.

(** A daemon that answers every request of a starting monitor. *)
Definition daemonOk : StartEnv :=
  {| newClient := ok openClient; inspect0 := ok webInfo |}.

(** The monitor of container [id] once [Exec] succeeded against
    [daemonOk]. *)
Definition startedMonitor (id : string) : TContainerMonitor :=
  set_stop false
    (set_Labels (Config_Labels webInfo)
       (set_cli (Some openClient) (newMonitor id))).

Definition idA : string := "aaaaaaaaaaaaaaaa".
Definition idB : string := "bbbbbbbbbbbbbbbb".

(** A tick that decodes a record and then fails the status query. *)
Definition failedInspect : Tick :=
  {| stopRequested := false;
     decoded := ok (cpuSample 150 100 2000 1000 []);
     inspected := err (errors_New "No such container") |}.

Definition goodTick : Tick :=
  {| stopRequested := false;
     decoded := ok (cpuSample 150 100 2000 1000 []);
     inspected := ok webInfo |}.

Definition stopTick : Tick :=
  {| stopRequested := true;
     decoded := ok (cpuSample 150 100 2000 1000 []);
     inspected := ok webInfo |}.

Definition eofTick : Tick :=
  {| stopRequested := false;
     decoded := err io_EOF;
     inspected := ok webInfo |}.

Definition emptyWorld : World :=
  {| heap := ∅; statsThreads := ∅; gauges := fun _ => ∅; output := [] |}.

(** Monitors for [idA] and [idB] at addresses 0 and 1, both registered. *)
Definition worldAB : World :=
  {| heap := <[0%nat := startedMonitor idA]>
               (<[1%nat := startedMonitor idB]> ∅);
     statsThreads := <[idA := 0%nat]> (<[idB := 1%nat]> ∅);
     gauges := fun _ => ∅;
     output := [] |}.

Definition containerA : Container := {| ID := idA; daemon := daemonOk |}.

(** [worldAB] after a cycle that lists [containerA] only. *)
Definition worldAB_after : World :=
  {| heap := <[1%nat := stopped (startedMonitor idB)]> (heap worldAB);
     statsThreads := statsThreads worldAB;
     gauges := fun v => if decide (v = containersCount)
                        then <[∅ := float64 1]> ∅ else ∅;
     output := [] |}.

(** ** Closed forms of the read loop *)

(** The ticks a running loop publishes: those before the first one that
    ends it. *)
Fixpoint published (ts : list Tick) : list Tick :=
  match ts with
  | [] => []
  | t :: ts => if ends t then [] else t :: published ts
  end.

(** What a published tick hands to [OnStatRead]: the decoded record with the
    inspected status and the monitor's labels. *)
Definition snapshot (m : TContainerMonitor) (t : Tick) : list Event :=
  match decoded t, inspected t, OnStatRead m with
  | ok statistic, ok containerInspect, Some f =>
      [CallOnStatRead f
         (Stat.set_Labels (Labels m)
            (Stat.set_RunningState (State_Status containerInspect)
               statistic))]
  | _, _, _ => []
  end.

(** The name a monitor has after publishing the given ticks: an empty name is
    replaced by the name of the record, any other name stays. *)
Fixpoint learnName (name : string) (ts : list Tick) : string :=
  match ts with
  | [] => name
  | t :: ts =>
      learnName
        (if String.eqb name "" then
           match decoded t with
           | ok statistic => Stat.Name statistic
           | err _ => name
           end
         else name) ts
  end.

(** The log line of the tick that ends the loop, in the first and in the
    second revision. *)
Definition endLog1 (t : Tick) : list Event :=
  if stopRequested t then []
  else
    match decoded t, inspected t with
    | err er, _ => [Log "Error reading from input:" (Some er)]
    | ok _, err e => [Log "Error inspecting container:" (Some e)]
    | ok _, ok _ => []
    end.

Definition endLog2 (t : Tick) : list Event :=
  if stopRequested t then []
  else
    match decoded t, inspected t with
    | err io_EOF, _ => []
    | err er, _ => [Log "Error reading from input:" (Some er)]
    | ok _, err e => [Log "Error inspecting container:" (Some e)]
    | ok _, ok _ => []
    end.

(** ** Further sample inputs *)

(** A record of container [idA], named "/web". *)
Definition webStat : TContainerStatistic :=
  {| Stat.Id := idA; Stat.Name := "/web";
     Stat.CPUStats :=
       {| types.CPUUsage_ := {| types.TotalUsage := 150;
                                types.PercpuUsage := [1; 2; 3; 4] |};
          types.SystemUsage := 2000 |};
     Stat.CPUStatsPre :=
       {| types.CPUUsage_ := {| types.TotalUsage := 100;
                                types.PercpuUsage := [] |};
          types.SystemUsage := 1000 |};
     Stat.MemoryStats := {| types.Usage := 4096; types.Limit := 8192 |};
     Stat.Labels := {["app" := "web"]}; Stat.RunningState := "" |}.


(** ** [main.go]: the two settings read from the environment *)

(** [strings.Split(s, sep)] for a separator [sep] of one byte: the pieces of
    [s] between the separators, one more than there are separators. *)
Fixpoint strings_Split (s : string) (sep : ascii) : list string :=
  match s with
  | EmptyString => [EmptyString]
  | String c s' =>
      if Ascii.eqb c sep then EmptyString :: strings_Split s' sep
      else
        match strings_Split s' sep with
        | [] => [String c EmptyString]
        | piece :: pieces => String c piece :: pieces
        end
  end.

(** The values [main] adds to [containersFilter] under the key "label", in
    order, given the value of [DOCKER_STATS_FILTER_LABELS]. *)
Definition filterLabels (setting : string) : list string :=
  filter (fun label => label <> "") (strings_Split setting " "%char).

(** Whether the byte [c] occurs in [s]. *)
Fixpoint contains (c : ascii) (s : string) : bool :=
  match s with
  | EmptyString => false
  | String c' s' => Ascii.eqb c' c || contains c s'
  end.

(** ** The label set of a record, entry by entry *)

(** The key and the value [containerStatisticRead] writes for one scrape
    label. *)
Definition labelKey (normalizeLabel : string -> string) (labelName : string)
  : string :=
  if String.eqb labelName "id" then "id"
  else if String.eqb labelName "name" then "name"
  else normalizeLabel labelName.

Definition labelValue (stat : TContainerStatistic) (labelName : string)
  : string :=
  if String.eqb labelName "id" then String.substring 0 12 (Stat.Id stat)
  else if String.eqb labelName "name" then removeFirstSlash (Stat.Name stat)
  else default "" (Stat.Labels stat !! labelName).

(** The five vectors that carry one series per container. *)
Definition containerVectors : list GaugeVec :=
  [memUsageVec; memLimitVec; cpuUsageTotalVec; cpuPercentage; runningStats].

(** The value [containerStatisticRead] sets in a vector. *)
Definition statValue (stat : TContainerStatistic) (vec : GaugeVec) : float :=
  match vec with
  | memUsageVec => float64 (types.Usage (Stat.MemoryStats stat))
  | memLimitVec => float64 (types.Limit (Stat.MemoryStats stat))
  | cpuUsageTotalVec =>
      float64 (types.TotalUsage (types.CPUUsage_ (Stat.CPUStats stat)))
  | cpuPercentage => calculateCPUPercentUnix stat
  | runningStats => stateToValue (Stat.RunningState stat)
  | containersCount => 0%float
  end.

(** ** Notions for the reconciliation cycle *)

(** Whether [Exec] succeeds for the monitor [main] constructs for a listed
    container. *)
Definition starts (cont : Container) : bool :=
  match Exec (daemon cont) (newMonitor (ID cont)) with
  | (None, _, _) => true
  | (Some _, _, _) => false
  end.

(** Every registered handle points to a monitor object of that id. *)
Definition consistent (w : World) : Prop :=
  forall id th, statsThreads w !! id = Some th ->
  exists m, heap w !! th = Some m /\ Id m = id.

(** The number of read loops started according to the output. *)
Definition is_spawn (o : Output) : bool :=
  match o with
  | At _ GoReadStream => true
  | _ => false
  end.

Definition spawned (out : list Output) : nat :=
  length (filter (fun o => is_spawn o = true) out).

(** ** Sample inputs for the cycle *)

Definition idC : string := "cccccccccccccccc".

Definition containerB : Container := {| ID := idB; daemon := daemonOk |}.

(** A listed container whose monitor cannot get a session. *)
Definition containerC : Container :=
  {| ID := idC;
     daemon := {| newClient := err (errors_New "Cannot connect");
                  inspect0 := ok webInfo |} |}.

(** The monitor of [idA] at address 0, registered. *)
Definition worldA : World :=
  {| heap := <[0%nat := startedMonitor idA]> ∅;
     statsThreads := <[idA := 0%nat]> ∅;
     gauges := fun _ => ∅;
     output := [] |}.

(** [worldA] after a cycle that lists [containerA], [containerB] and
    [containerC]. *)
Definition worldA_after : World :=
  {| heap := <[2%nat := newMonitor idC]>
               (<[1%nat := startedMonitor idB]> (heap worldA));
     statsThreads := <[idB := 1%nat]> (statsThreads worldA);
     gauges := fun v => if decide (v = containersCount)
                        then <[∅ := float64 3]> ∅ else ∅;
     output := [At 1 GoReadStream;
                MainLog "Start monitoring for container:" None;
                MainLog "Error executing container monitor:"
                  (Some (errors_New "Cannot connect"))] |}.


(** * Properties *)

(** A float that is zero or negative is not strictly positive. *)
Lemma float_le0_not_pos (d : float) :
  (d <=? 0)%float = true -> (0 <? d)%float = false.
Proof.
  rewrite leb_spec, ltb_spec.
  change (Prim2SF 0) with (S754_zero false).
  destruct (Prim2SF d) as [s | s | | s m e]; try destruct s; cbn; congruence.
Qed.

(** C4. With both deltas strictly positive the CPU percentage is
    [cpuDelta / systemDelta * 100], further multiplied by the number of
    per-core entries when there is at least one; with a zero or negative delta
    it is [0.0].  For totals 150 and 100 and system usages 2000 and 1000 it is
    [5.0] without per-core entries and [20.0] with four of them. *)
Theorem calculateCPUPercentUnix_spec :
  (forall stat : TContainerStatistic,
      (0 <? cpuDelta stat)%float = true ->
      (0 <? systemDelta stat)%float = true ->
      calculateCPUPercentUnix stat =
        match types.PercpuUsage (types.CPUUsage_ (Stat.CPUStats stat)) with
        | [] => (cpuDelta stat / systemDelta stat * 100)%float
        | percpu =>
            (cpuDelta stat / systemDelta stat * 100
             * float64 (Z.of_nat (length percpu)))%float
        end) /\
  (forall stat : TContainerStatistic,
      (cpuDelta stat <=? 0)%float = true \/
      (systemDelta stat <=? 0)%float = true ->
      calculateCPUPercentUnix stat = 0%float) /\
  calculateCPUPercentUnix (cpuSample 150 100 2000 1000 []) = 5%float /\
  (forall a b c d : Z,
      calculateCPUPercentUnix (cpuSample 150 100 2000 1000 [a; b; c; d])
      = 20%float).
Proof.
  split; [|split; [|split]].
  - intros stat Hc Hs. unfold calculateCPUPercentUnix.
    rewrite Hc, Hs. cbn [andb].
    destruct (types.PercpuUsage _) as [|u us]; [reflexivity|].
    replace (0 <? Z.of_nat (length (u :: us))) with true; [reflexivity|].
    symmetry. apply Z.ltb_lt. cbn [length]. lia.
  - intros stat [H|H]; apply float_le0_not_pos in H;
      unfold calculateCPUPercentUnix; rewrite H;
      [rewrite andb_false_r|]; reflexivity.
  - vm_compute. reflexivity.
  - intros a b c d. vm_compute. reflexivity.
Qed.

Lemma calculateCPUPercentUnix_spec_witness :
  calculateCPUPercentUnix (cpuSample 300 100 5000 1000 [7; 9]) = 10%float /\
  calculateCPUPercentUnix (cpuSample 100 100 5000 1000 [7; 9]) = 0%float.
Proof.
  destruct calculateCPUPercentUnix_spec as (Hpos & Hzero & _).
  split.
  - rewrite (Hpos (cpuSample 300 100 5000 1000 [7; 9]));
      vm_compute; reflexivity.
  - apply (Hzero (cpuSample 100 100 5000 1000 [7; 9])).
    left. vm_compute. reflexivity.
Defined.

(** C5. The lifecycle status mapping: the seven known statuses map to 0..6
    and every other string maps to -1. *)
Theorem stateToValue_mapping :
  stateToValue "created" = 0%float /\
  stateToValue "running" = 1%float /\
  stateToValue "paused" = 2%float /\
  stateToValue "restarting" = 3%float /\
  stateToValue "removing" = 4%float /\
  stateToValue "exited" = 5%float /\
  stateToValue "dead" = 6%float /\
  (forall state : string,
      state ∉ ["created"; "running"; "paused"; "restarting";
               "removing"; "exited"; "dead"] ->
      stateToValue state = (-1)%float).
Proof.
  repeat split; try reflexivity.
  intros state Hn. unfold stateToValue.
  repeat match goal with
  | |- context [String.eqb state ?s] =>
      destruct (String.eqb_spec state s) as [->|_];
      [exfalso; apply Hn; set_solver|]
  end.
  reflexivity.
Qed.

Lemma stateToValue_mapping_witness :
  stateToValue "unknown" = (-1)%float.
Proof.
  destruct stateToValue_mapping as (_ & _ & _ & _ & _ & _ & _ & H).
  apply (H "unknown").
  intros Hin. repeat (apply elem_of_cons in Hin as [Heq|Hin]; [discriminate|]).
  by apply elem_of_nil in Hin.
Defined.

(** ** The monitor's methods *)

Ltac task_unfold :=
  unfold mbind, mret, Task_bind, Task_ret, get, modify, emit in *.

Lemma Stop_spec (m : TContainerMonitor) :
  Stop m = (cli m ≫= closeErr, stopped m, []).
Proof.
  unfold Stop, stopped. task_unfold. cbn.
  destruct (cli m) as [c|]; reflexivity.
Qed.

Lemma stopped_idemp (m : TContainerMonitor) : stopped (stopped m) = stopped m.
Proof. unfold stopped. destruct m as [i n l [c|] s f g]; reflexivity. Qed.

Lemma stopped_fields (m : TContainerMonitor) :
  stop (stopped m) = true /\ Id (stopped m) = Id m /\
  Name (stopped m) = Name m /\ Labels (stopped m) = Labels m /\
  OnStatRead (stopped m) = OnStatRead m /\ OnRemove (stopped m) = OnRemove m /\
  cli (stopped m) = (fun c => fst (Client_Close c)) <$> cli m.
Proof. unfold stopped. destruct (cli m) eqn:E; cbn; rewrite ?E; tauto. Qed.

Lemma notify_removed_spec (m : TContainerMonitor) :
  notify_removed m = (tt, m, removal m).
Proof.
  unfold notify_removed, removal. task_unfold.
  destruct (OnRemove m); reflexivity.
Qed.

(** C10. [SetOpt] answers every option with the "Unknown option" error and
    leaves the monitor as it was, calling nothing; so after any sequence of
    [SetOpt] calls the monitor is still the one before them. *)
Theorem SetOpt_rejects (m : TContainerMonitor) :
  (forall opt : TOpt,
      SetOpt opt m =
        (Some (errors_New ("Unknown option: " ++ Opt.Name opt)), m, [])) /\
  (forall opts : list TOpt,
      foldl (fun m opt => snd (fst (SetOpt opt m))) m opts = m).
Proof.
  split.
  - intros opt. reflexivity.
  - intros opts. induction opts as [|opt opts IH]; [reflexivity|].
    cbn [foldl]. exact IH.
Qed.

(** The first revision's [GetOpt] only reads. *)
Lemma Rev1_GetOpt_pure (name : string) (m : TContainerMonitor) :
  Rev1.GetOpt name m =
    (if String.eqb name "name" then
       Some {| Opt.Name := "name"; Opt.Value := Opt.VString (Name m) |}
     else if String.eqb name "labels" then
       Some {| Opt.Name := "labels"; Opt.Value := Opt.VLabels (Labels m) |}
     else None, m, []).
Proof.
  unfold Rev1.GetOpt. task_unfold.
  destruct (String.eqb name "name"); [reflexivity|].
  destruct (String.eqb name "labels"); reflexivity.
Qed.

(** The second revision's [GetOpt] reads the two known options and, for any
    other name, overwrites the id and the name of the monitor. *)
Lemma Rev2_GetOpt_spec (name : string) (m : TContainerMonitor) :
  Rev2.GetOpt name m =
    if String.eqb name "name" then
      (Some {| Opt.Name := "name"; Opt.Value := Opt.VString (Name m) |}, m, [])
    else if String.eqb name "labels" then
      (Some {| Opt.Name := "labels"; Opt.Value := Opt.VLabels (Labels m) |},
       m, [])
    else (None, set_Name "" (set_Id "0" m), []).
Proof.
  unfold Rev2.GetOpt. task_unfold.
  destruct (String.eqb name "name"); [reflexivity|].
  destruct (String.eqb name "labels"); reflexivity.
Qed.

(** C3. In the second revision [GetOpt] is not a pure read: asked for the
    unknown option "cpu", it returns [nil] and resets the started monitor of
    [idA] to id "0" with an empty name. *)
Theorem Rev2_GetOpt_unknown_mutates :
  let m := set_Name "/web" (startedMonitor idA) in
  Rev2.GetOpt "cpu" m = (None, set_Name "" (set_Id "0" m), []) /\
  Id (snd (fst (Rev2.GetOpt "cpu" m))) = "0" /\
  Name (snd (fst (Rev2.GetOpt "cpu" m))) = "" /\
  Id m = idA /\ Name m = "/web".
Proof. cbv zeta. repeat split. Qed.

(** C8. [Exec] fails with the configuration error on an empty id, with
    the client's error when no session can be had and with the inspection's
    error when the labels cannot be read, and then starts no read loop;
    otherwise it stores the labels, clears the stop flag, starts the read
    loop as a task of its own and returns [nil]. *)
Theorem Exec_outcomes (env : StartEnv) (m : TContainerMonitor) :
  (Id m = "" ->
   Exec env m =
     (Some (errors_New "configuration error: container ID must be set"),
      m, [])) /\
  (Id m <> "" -> forall e, newClient env = err e ->
   Exec env m = (Some e, m, [])) /\
  (Id m <> "" -> forall c e, newClient env = ok c -> inspect0 env = err e ->
   Exec env m = (Some e, set_cli (Some c) m, [])) /\
  (Id m <> "" -> forall c info,
   newClient env = ok c -> inspect0 env = ok info ->
   Exec env m =
     (None,
      set_stop false (set_Labels (Config_Labels info) (set_cli (Some c) m)),
      [GoReadStream])).
Proof.
  unfold Exec, init. task_unfold.
  repeat split.
  - intros ->. reflexivity.
  - intros Hid e ->. apply String.eqb_neq in Hid. rewrite Hid. reflexivity.
  - intros Hid c e -> ->. apply String.eqb_neq in Hid. rewrite Hid.
    reflexivity.
  - intros Hid c info -> ->. apply String.eqb_neq in Hid. rewrite Hid.
    reflexivity.
Qed.

Lemma Exec_outcomes_witness :
  Exec daemonOk (newMonitor "") =
    (Some (errors_New "configuration error: container ID must be set"),
     newMonitor "", []) /\
  Exec {| newClient := err (errors_New "Cannot connect");
          inspect0 := ok webInfo |} (newMonitor idA) =
    (Some (errors_New "Cannot connect"), newMonitor idA, []) /\
  Exec {| newClient := ok openClient;
          inspect0 := err (errors_New "No such container") |}
       (newMonitor idA) =
    (Some (errors_New "No such container"),
     set_cli (Some openClient) (newMonitor idA), []) /\
  Exec daemonOk (newMonitor idA) = (None, startedMonitor idA, [GoReadStream]).
Proof.
  split; [|split; [|split]].
  - apply (proj1 (Exec_outcomes daemonOk (newMonitor ""))). reflexivity.
  - apply (proj1 (proj2 (Exec_outcomes
             {| newClient := err (errors_New "Cannot connect");
                inspect0 := ok webInfo |} (newMonitor idA))));
      first [discriminate | reflexivity].
  - apply (proj1 (proj2 (proj2 (Exec_outcomes
             {| newClient := ok openClient;
                inspect0 := err (errors_New "No such container") |}
             (newMonitor idA)))));
      first [discriminate | reflexivity].
  - apply (proj2 (proj2 (proj2 (Exec_outcomes daemonOk (newMonitor idA)))));
      first [discriminate | reflexivity].
Defined.

(** ** The read loop *)

Lemma bind_unfold {A B : Type} (t : Task A) (k : A -> Task B)
    (m : TContainerMonitor) :
  (t ≫= k) m =
    let '(a, m1, evs1) := t m in
    let '(b, m2, evs2) := k a m1 in
    (b, m2, evs1 ++ evs2).
Proof. reflexivity. Qed.

Lemma removals_app (evs1 evs2 : list Event) :
  removals (evs1 ++ evs2) = (removals evs1 + removals evs2)%nat.
Proof. unfold removals. rewrite filter_app, length_app. reflexivity. Qed.

Lemma removals_removal (m : TContainerMonitor) :
  removals (removal m) = (if OnRemove m is Some _ then 1 else 0)%nat.
Proof. unfold removal. destruct (OnRemove m); reflexivity. Qed.

Lemma interleave_spec (t : Tick) (m : TContainerMonitor) :
  interleave t m = (tt, if stopRequested t then stopped m else m, []).
Proof.
  unfold interleave. destruct (stopRequested t); [|reflexivity].
  rewrite bind_unfold, Stop_spec. reflexivity.
Qed.

(** A published tick keeps the id, the handlers and the stop flag of the
    monitor and calls no [OnRemove]. *)
Lemma publish_spec (statistic : TContainerStatistic)
    (containerInspect : ContainerJSON) (m : TContainerMonitor) :
  exists m' evs,
    publish statistic containerInspect m = (tt, m', evs) /\
    removal m' = removal m /\ stop m' = stop m /\ removals evs = 0%nat.
Proof.
  unfold publish, removal. task_unfold.
  destruct (String.eqb (Name m) ""); cbn;
    destruct (OnStatRead m); cbn; eauto 10.
Qed.

Lemma Rev1_loop_spec (ts : list Tick) :
  forall m, stop m = false ->
  exists m' evs,
    Rev1.loop ts m = (existsb ends ts, m', evs) /\
    removal m' = removal m /\ removals evs = 0%nat.
Proof.
  induction ts as [|t ts IH]; intros m Hm.
  - exists m, []. repeat split.
  - cbn [Rev1.loop existsb]. rewrite bind_unfold, interleave_spec.
    unfold ends at 1.
    destruct (stopRequested t) eqn:Hreq; cbn [orb].
    + exists (stopped m), [].
      destruct (stopped_fields m) as (Hs & Hid & _ & _ & _ & Hr & _).
      rewrite bind_unfold. unfold get. rewrite Hs.
      unfold removal. rewrite Hid, Hr. repeat split.
    + rewrite bind_unfold. unfold get. rewrite Hm.
      destruct (decoded t) as [statistic|er];
        [|rewrite bind_unfold; unfold emit, mret, Task_ret; cbn; eauto 10].
      destruct (inspected t) as [containerInspect|e];
        [|rewrite bind_unfold; unfold emit, mret, Task_ret; cbn; eauto 10].
      destruct (publish_spec statistic containerInspect m)
        as (m1 & evs1 & Hp & Hr1 & Hs1 & Hn1).
      rewrite bind_unfold, Hp.
      destruct (IH m1) as (m2 & evs2 & Hl & Hr2 & Hn2); [congruence|].
      rewrite Hl. cbn [orb app]. exists m2, (evs1 ++ evs2).
      repeat split; [congruence|].
      rewrite removals_app, Hn1, Hn2. reflexivity.
Qed.

Lemma Rev2_loop_spec (ts : list Tick) :
  forall m, stop m = false ->
  exists m' evs,
    Rev2.loop ts m = (Rev2_exit ts, m', evs) /\
    removal m' = removal m /\ removals evs = 0%nat.
Proof.
  unfold Rev2_exit.
  induction ts as [|t ts IH]; intros m Hm.
  - exists m, []. repeat split.
  - cbn [Rev2.loop List.find]. rewrite bind_unfold, interleave_spec.
    unfold ends at 1.
    destruct (stopRequested t) eqn:Hreq; cbn [orb].
    + exists (stopped m), [].
      destruct (stopped_fields m) as (Hs & Hid & _ & _ & _ & Hr & _).
      rewrite bind_unfold. unfold get. rewrite Hs, Hreq.
      unfold removal. rewrite Hid, Hr. repeat split.
    + rewrite bind_unfold. unfold get. rewrite Hm.
      destruct (decoded t) as [statistic|er] eqn:Hdec.
      * destruct (inspected t) as [containerInspect|e] eqn:Hins.
        -- destruct (publish_spec statistic containerInspect m)
             as (m1 & evs1 & Hp & Hr1 & Hs1 & Hn1).
           rewrite bind_unfold, Hp.
           destruct (IH m1) as (m2 & evs2 & Hl & Hr2 & Hn2); [congruence|].
           rewrite Hl. cbn [app]. exists m2, (evs1 ++ evs2).
           repeat split; [congruence|].
           rewrite removals_app, Hn1, Hn2. reflexivity.
        -- rewrite Hreq, Hdec, bind_unfold. unfold emit, mret, Task_ret.
           cbn. eauto 10.
      * rewrite Hreq, Hdec.
        exists (set_stop true m). rewrite !bind_unfold.
        unfold modify, mret, Task_ret.
        destruct er; unfold emit, mret, Task_ret; cbn; eauto 10.
Qed.

(** In the first revision a loop that began calls [OnRemove] exactly once
    if it returns, whatever made it return, and not before. *)
Lemma Rev1_readStream_removals (s : StatsSession) (m : TContainerMonitor) :
  opened s = None -> stop m = false ->
  exists m' evs,
    Rev1.readStream s m = (existsb ends (ticks s), m', evs) /\
    removals evs =
      (if existsb ends (ticks s) then removals (removal m) else 0)%nat.
Proof.
  intros Ho Hm. unfold Rev1.readStream. rewrite Ho, bind_unfold.
  destruct (Rev1_loop_spec (ticks s) m Hm) as (m' & evs & Hl & Hr & Hn).
  rewrite Hl. destruct (existsb ends (ticks s)).
  - rewrite bind_unfold, notify_removed_spec. unfold mret, Task_ret.
    eexists _, _. split; [reflexivity|].
    rewrite !removals_app, Hn, Hr. cbn. lia.
  - unfold mret, Task_ret. eexists _, _. split; [reflexivity|].
    rewrite removals_app, Hn. reflexivity.
Qed.

(** In the second revision a loop that began calls [OnRemove] once when it
    is left by [break], and not at all when it is left by the [return] of
    the failed status query. *)
Lemma Rev2_readStream_removals (s : StatsSession) (m : TContainerMonitor) :
  opened s = None -> stop m = false ->
  exists m' evs,
    Rev2.readStream s m = (existsb ends (ticks s), m', evs) /\
    removals evs =
      match Rev2_exit (ticks s) with
      | Rev2.Break => removals (removal m)
      | _ => 0%nat
      end.
Proof.
  intros Ho Hm. unfold Rev2.readStream. rewrite Ho, bind_unfold.
  destruct (Rev2_loop_spec (ticks s) m Hm) as (m' & evs & Hl & Hr & Hn).
  rewrite Hl.
  assert (Hex : existsb ends (ticks s) =
                match Rev2_exit (ticks s) with
                | Rev2.Running => false
                | _ => true
                end).
  { unfold Rev2_exit. clear. induction (ticks s) as [|t ts IH]; [reflexivity|].
    cbn [existsb List.find]. destruct (ends t); [|exact IH].
    cbn [orb]. destruct (stopRequested t); [reflexivity|].
    destruct (decoded t); reflexivity. }
  rewrite Hex. destruct (Rev2_exit (ticks s)).
  - unfold mret, Task_ret. eexists _, _. split; [reflexivity|].
    rewrite removals_app, Hn. reflexivity.
  - rewrite bind_unfold, notify_removed_spec. unfold mret, Task_ret.
    eexists _, _. split; [reflexivity|].
    rewrite !removals_app, Hn, Hr. cbn. lia.
  - unfold mret, Task_ret. eexists _, _. split; [reflexivity|].
    rewrite removals_app, Hn. reflexivity.
Qed.

(** A monitor whose [Exec] failed started no read loop, so nothing can call
    its [OnRemove]. *)
Lemma Exec_failed_no_task (env : StartEnv) (m m' : TContainerMonitor)
    (e : error) (evs : list Event) :
  Exec env m = (Some e, m', evs) -> evs = [].
Proof.
  unfold Exec, init. task_unfold.
  destruct (String.eqb (Id m) ""); [cbn; congruence|].
  destruct (newClient env); [|cbn; congruence].
  destruct (inspect0 env); cbn; congruence.
Qed.

(** C1. In the second revision the started monitor of [idA], whose loop
    decodes one record and then fails the status query, returns from
    [readStream] without calling [OnRemove]: the trace holds the log line
    only. *)
Theorem Rev2_failed_inspect_skips_OnRemove :
  Exec daemonOk (newMonitor idA) = (None, startedMonitor idA, [GoReadStream]) /\
  Rev2.readStream {| opened := None; ticks := [failedInspect] |}
                  (startedMonitor idA) =
    (true, startedMonitor idA,
     [Log "Error inspecting container:"
          (Some (errors_New "No such container"))]) /\
  removals [Log "Error inspecting container:"
                (Some (errors_New "No such container"))] = 0%nat /\
  Rev1.readStream {| opened := None; ticks := [failedInspect] |}
                  (startedMonitor idA) =
    (true, startedMonitor idA,
     [Log "Error inspecting container:"
          (Some (errors_New "No such container"));
      CallOnRemove clb_containerStopped idA]).
Proof. repeat split. Qed.

(** Once stopped, a read loop of either revision returns at its next tick
    with the one [OnRemove] call the monitor owes. *)
Lemma readStream_stopped (t : Tick) (ts : list Tick) (m : TContainerMonitor) :
  Rev1.readStream {| opened := None; ticks := t :: ts |} (stopped m)
  = (true, stopped m, removal m) /\
  Rev2.readStream {| opened := None; ticks := t :: ts |} (stopped m)
  = (true, stopped m, removal m).
Proof.
  destruct (stopped_fields m) as (Hs & Hid & _ & _ & _ & Hr & _).
  split.
  - unfold Rev1.readStream. cbn [opened ticks Rev1.loop].
    rewrite !bind_unfold, interleave_spec, stopped_idemp.
    replace (if stopRequested t then stopped m else stopped m)
      with (stopped m) by (destruct (stopRequested t); reflexivity).
    rewrite bind_unfold. unfold get. rewrite Hs. unfold mret, Task_ret.
    rewrite bind_unfold, notify_removed_spec.
    unfold removal. rewrite Hid, Hr. cbn [app]. rewrite app_nil_r.
    reflexivity.
  - unfold Rev2.readStream. cbn [opened ticks Rev2.loop].
    rewrite !bind_unfold, interleave_spec, stopped_idemp.
    replace (if stopRequested t then stopped m else stopped m)
      with (stopped m) by (destruct (stopRequested t); reflexivity).
    rewrite bind_unfold. unfold get. rewrite Hs. unfold mret, Task_ret.
    rewrite bind_unfold, notify_removed_spec.
    unfold removal. rewrite Hid, Hr. cbn [app]. rewrite app_nil_r.
    reflexivity.
Qed.

(** C6. If closing the session reports no error, [Stop] returns [nil] the
    first and the second time, the second call changes nothing, and neither
    call produces an event: only the stop flag and the session differ from
    the monitor before.  A read loop of either revision that then reaches
    its next tick returns with the one [OnRemove] call the monitor owes. *)
Theorem Stop_idempotent (m : TContainerMonitor) :
  (forall c, cli m = Some c -> closeErr c = None) ->
  Stop m = (None, stopped m, []) /\
  Stop (stopped m) = (None, stopped m, []) /\
  stop (stopped m) = true /\
  cli (stopped m) = (fun c => fst (Client_Close c)) <$> cli m /\
  Id (stopped m) = Id m /\ Name (stopped m) = Name m /\
  Labels (stopped m) = Labels m /\
  OnStatRead (stopped m) = OnStatRead m /\
  OnRemove (stopped m) = OnRemove m /\
  (forall t ts evs,
      evs = match OnRemove m with
            | Some f => [CallOnRemove f (Id m)]
            | None => []
            end ->
      Rev1.readStream {| opened := None; ticks := t :: ts |} (stopped m)
      = (true, stopped m, evs) /\
      Rev2.readStream {| opened := None; ticks := t :: ts |} (stopped m)
      = (true, stopped m, evs)).
Proof.
  intros Hclose.
  destruct (stopped_fields m) as (Hs & Hid & Hname & Hl & Hst & Hr & Hcli).
  assert (Herr : cli m ≫= closeErr = None).
  { destruct (cli m) as [c|] eqn:E; [exact (Hclose c eq_refl)|reflexivity]. }
  assert (Herr' : cli (stopped m) ≫= closeErr = None).
  { rewrite Hcli. destruct (cli m) as [c|] eqn:E; [|reflexivity].
    exact (Hclose c eq_refl). }
  repeat split; try assumption.
  - rewrite Stop_spec, Herr. reflexivity.
  - rewrite Stop_spec, Herr', stopped_idemp. reflexivity.
  - subst evs. apply (readStream_stopped t ts m).
  - subst evs. apply (readStream_stopped t ts m).
Qed.

Lemma Stop_idempotent_witness :
  Stop (startedMonitor idB) = (None, stopped (startedMonitor idB), []) /\
  Stop (stopped (startedMonitor idB))
  = (None, stopped (startedMonitor idB), []) /\
  Rev1.readStream {| opened := None; ticks := [goodTick] |}
                  (stopped (startedMonitor idB))
  = (true, stopped (startedMonitor idB),
     [CallOnRemove clb_containerStopped idB]).
Proof.
  assert (H : forall c, cli (startedMonitor idB) = Some c -> closeErr c = None).
  { intros c Hc. injection Hc as <-. reflexivity. }
  destruct (Stop_idempotent (startedMonitor idB) H)
    as (H1 & H2 & _ & _ & _ & _ & _ & _ & _ & H3).
  split; [exact H1|]. split; [exact H2|].
  exact (proj1 (H3 goodTick [] _ eq_refl)).
Defined.

(** ** The registry *)

(** C2. [Put] on an id that is present returns the duplicate error and the
    registry as it was; on an absent id it succeeds and the id then maps to
    the handle.  Either way the other ids keep their handles and the keys
    hold no id twice. *)
Theorem Put_no_overwrite (id : string) (handle : nat)
    (reg : gmap string nat) :
  (forall h0, reg !! id = Some h0 ->
     ThreadList.Put id handle reg = (reg, Some (AlreadyMonitored id)) /\
     ThreadList.Get id (fst (ThreadList.Put id handle reg)) = Some h0) /\
  (reg !! id = None ->
     ThreadList.Put id handle reg = (<[id := handle]> reg, None) /\
     ThreadList.Get id (fst (ThreadList.Put id handle reg)) = Some handle) /\
  (forall id', id' <> id ->
     ThreadList.Get id' (fst (ThreadList.Put id handle reg))
     = ThreadList.Get id' reg) /\
  NoDup (ThreadList.GetKeys (fst (ThreadList.Put id handle reg))).
Proof.
  unfold ThreadList.Put, ThreadList.Get, ThreadList.Exists,
    ThreadList.GetKeys.
  split; [|split; [|split]].
  - intros h0 Hh. rewrite bool_decide_eq_true_2 by (rewrite Hh; eauto).
    split; [reflexivity|exact Hh].
  - intros Hn. rewrite bool_decide_eq_false_2
      by (rewrite Hn; apply is_Some_None).
    split; [reflexivity|]. cbn. apply lookup_insert_eq.
  - intros id' Hne. case_bool_decide; [reflexivity|].
    cbn. apply lookup_insert_ne. congruence.
  - apply NoDup_elements.
Qed.

Lemma Put_no_overwrite_witness :
  ThreadList.Put idB 7%nat (statsThreads worldAB)
  = (statsThreads worldAB, Some (AlreadyMonitored idB)) /\
  ThreadList.Get idB (fst (ThreadList.Put idB 7%nat (statsThreads worldAB)))
  = Some 1%nat /\
  ThreadList.Get idB (fst (ThreadList.Put idB 7%nat ∅)) = Some 7%nat /\
  ThreadList.Get idA (fst (ThreadList.Put idB 7%nat (statsThreads worldAB)))
  = Some 0%nat.
Proof.
  destruct (Put_no_overwrite idB 7%nat (statsThreads worldAB))
    as (Hdup & _ & Hother & _).
  destruct (Put_no_overwrite idB 7%nat ∅) as (_ & Hnew & _).
  split; [apply (Hdup 1%nat); reflexivity|].
  split; [apply (Hdup 1%nat); reflexivity|].
  split; [apply Hnew; reflexivity|].
  rewrite (Hother idA); [reflexivity|discriminate].
Defined.

(** ** The handlers of [main.go] *)

Lemma Prog_bind_unfold {A B : Type} (p : Prog A) (k : A -> Prog B)
    (w : World) :
  (p ≫= k) w =
    match p w with
    | Done (a, w') => k a w'
    | Panic msg => Panic msg
    end.
Proof. reflexivity. Qed.

Lemma Prog_bind_Done {A B : Type} (p : Prog A) (k : A -> Prog B)
    (w w2 : World) (b : B) :
  (p ≫= k) w = Done (b, w2) ->
  exists a w1, p w = Done (a, w1) /\ k a w1 = Done (b, w2).
Proof.
  rewrite Prog_bind_unfold. destruct (p w) as [[a w1]|msg]; [eauto|].
  discriminate.
Qed.

Lemma slice_short (s : string) (hi : nat) (w : World) :
  (String.length s < hi)%nat ->
  slice s hi w = Panic "slice bounds out of range".
Proof.
  intros Hlt. unfold slice.
  destruct (Nat.leb_spec hi (String.length s)) as [Hle|_]; [lia|reflexivity].
Qed.

Lemma slice_Done (s r : string) (hi : nat) (w w' : World) :
  slice s hi w = Done (r, w') ->
  (hi <= String.length s)%nat /\ r = String.substring 0 hi s /\ w' = w.
Proof.
  unfold slice.
  destruct (Nat.leb_spec hi (String.length s)) as [Hle|_]; [|discriminate].
  intros [= <- <-]. auto.
Qed.

Lemma containerStopped_short (rev : Revision) (containerId : string)
    (w : World) :
  (String.length containerId < 12)%nat ->
  containerStopped rev containerId w = Panic "slice bounds out of range".
Proof.
  intros Hlt. unfold containerStopped.
  rewrite Prog_bind_unfold, slice_short by exact Hlt. reflexivity.
Qed.

(** C9. A statistic or a removal whose container id has fewer than 12
    characters makes its handler panic on the slice [[0:12]]; [Exec] accepts
    such an id, and the monitor's loop, once over, takes the program down
    through [containerStopped]. *)
Theorem short_id_panics (normalizeLabel : string -> string)
    (labelFields : list string) :
  (forall stat w,
      (String.length (Stat.Id stat) < 12)%nat ->
      containerStatisticRead normalizeLabel labelFields stat w
      = Panic "slice bounds out of range") /\
  (forall rev containerId w,
      (String.length containerId < 12)%nat ->
      containerStopped rev containerId w
      = Panic "slice bounds out of range") /\
  (forall rev th m t ts w,
      rev = rev1 \/ rev = rev2 ->
      (String.length (Id m) < 12)%nat ->
      OnRemove m = Some clb_containerStopped ->
      heap w !! th = Some (stopped m) ->
      runReadStream normalizeLabel labelFields rev th
        {| opened := None; ticks := t :: ts |} w
      = Panic "slice bounds out of range").
Proof.
  split; [|split].
  - intros stat w Hlt.
    unfold containerStatisticRead, scrapeLabels, getLabels.
    cbn [app statLabels String.eqb Ascii.eqb Bool.eqb].
    rewrite !Prog_bind_unfold, slice_short by exact Hlt. reflexivity.
  - intros rev containerId w Hlt. apply containerStopped_short, Hlt.
  - intros rev th m t ts w Hrev Hlt Hrem Hheap.
    unfold runReadStream. rewrite Prog_bind_unfold. cbn [getW].
    rewrite Hheap.
    assert (Hrs : readStream rev {| opened := None; ticks := t :: ts |}
                    (stopped m)
                  = (true, stopped m, [CallOnRemove clb_containerStopped (Id m)])).
    { destruct (readStream_stopped t ts m) as [H1 H2].
      unfold removal in H1, H2. rewrite Hrem in H1, H2.
      destruct Hrev as [-> | ->]; assumption. }
    rewrite Hrs. rewrite !Prog_bind_unfold.
    cbn [modifyW forEach handle].
    rewrite !Prog_bind_unfold, containerStopped_short by exact Hlt.
    reflexivity.
Qed.

Lemma short_id_panics_witness :
  containerStatisticRead (fun lbl => lbl) ["app"]
    (cpuSample 150 100 2000 1000 []) emptyWorld
  = Panic "slice bounds out of range" /\
  containerStopped rev1 "abc" worldAB = Panic "slice bounds out of range" /\
  runReadStream (fun lbl => lbl) ["app"] rev2 0%nat
    {| opened := None; ticks := [goodTick] |}
    (set_heap (<[0%nat := stopped (startedMonitor "abc")]> ∅) emptyWorld)
  = Panic "slice bounds out of range".
Proof.
  destruct (short_id_panics (fun lbl => lbl) ["app"]) as (Hstat & Hrem & Hrun).
  split; [|split].
  - apply Hstat. cbn. lia.
  - apply Hrem. cbn. lia.
  - apply (Hrun rev2 0%nat (startedMonitor "abc")).
    + right. reflexivity.
    + cbn. lia.
    + reflexivity.
    + reflexivity.
Defined.

(** ** The reconciliation cycle *)

Ltac prog_unfold :=
  unfold new, call, println, modifyW, getW, panic, Gauge_Set,
    mbind, mret, Prog_bind, Prog_ret in *.

Lemma fresh_heap (w : World) : heap w !! fresh (dom (heap w)) = None.
Proof. apply not_elem_of_dom, is_fresh. Qed.

Lemma startMonitor_keeps (cont : Container) (w w' : World) :
  startMonitor cont w = Done (tt, w') -> keeps w w'.
Proof.
  unfold startMonitor, ThreadList.Put, ThreadList.Exists, slice. prog_unfold.
  generalize (Nat.leb 12 (String.length (ID cont))). intros long.
  cbn.
  case_bool_decide as Hex.
  { intros [= <-]. split; auto. }
  rewrite lookup_insert_eq.
  destruct (Exec _ _) as [[e m'] evs]. cbn.
  assert (Hheap : forall l m, heap w !! l = Some m ->
            <[fresh (dom (heap w)) := m']>
              (<[fresh (dom (heap w)) := newMonitor (ID cont)]> (heap w)) !! l
            = Some m).
  { intros l m Hl. rewrite !lookup_insert_ne; [exact Hl| |];
      intros <-; rewrite fresh_heap in Hl; discriminate. }
  destruct e as [e|]; cbn.
  { intros [= <-]. split; cbn; auto. }
  rewrite bool_decide_eq_false_2 by exact Hex. cbn.
  destruct long; cbn; [|discriminate].
  intros [= <-]. split; cbn; [|exact Hheap].
  intros id th Hid. rewrite lookup_insert_ne; [exact Hid|].
  intros <-. apply Hex. rewrite Hid. eauto.
Qed.

Lemma stops_refl (w : World) : stops w w.
Proof. split; auto. Qed.

Lemma stops_trans (w1 w2 w3 : World) : stops w1 w2 -> stops w2 w3 -> stops w1 w3.
Proof.
  intros [Hr1 Hh1] [Hr2 Hh2]. split; [congruence|].
  intros l m Hl. destruct (Hh1 l m Hl) as [H|H];
    destruct (Hh2 _ _ H) as [H'|H']; rewrite ?stopped_idemp in H'; auto.
Qed.

Lemma keeps_refl (w : World) : keeps w w.
Proof. split; auto. Qed.

Lemma keeps_trans (w1 w2 w3 : World) : keeps w1 w2 -> keeps w2 w3 -> keeps w1 w3.
Proof. intros [Hr1 Hh1] [Hr2 Hh2]. split; auto. Qed.

Lemma forEach_preserves {A : Type} (R : World -> World -> Prop)
    (body : A -> Prog unit) :
  (forall w, R w w) ->
  (forall w1 w2 w3, R w1 w2 -> R w2 w3 -> R w1 w3) ->
  (forall x w w', body x w = Done (tt, w') -> R w w') ->
  forall l w w', forEach l body w = Done (tt, w') -> R w w'.
Proof.
  intros Hrefl Htrans Hbody l.
  induction l as [|x l IH]; intros w w' H.
  - injection H as <-. apply Hrefl.
  - cbn [forEach] in H. apply Prog_bind_Done in H as ([] & w1 & H1 & H2).
    eapply Htrans; [apply (Hbody _ _ _ H1)|apply (IH _ _ H2)].
Qed.

Lemma forEach_app {A : Type} (l1 l2 : list A) (body : A -> Prog unit)
    (w w' : World) :
  forEach (l1 ++ l2) body w = Done (tt, w') ->
  exists w1, forEach l1 body w = Done (tt, w1) /\
             forEach l2 body w1 = Done (tt, w').
Proof.
  revert w. induction l1 as [|x l1 IH]; intros w H.
  - exists w. split; [reflexivity|exact H].
  - cbn [app forEach] in H. apply Prog_bind_Done in H as ([] & w1 & H1 & H2).
    destruct (IH _ H2) as (w2 & H3 & H4). exists w2. split; [|exact H4].
    cbn [forEach]. rewrite Prog_bind_unfold, H1. exact H3.
Qed.

Lemma stopRemoved_stops (containerList : list Container) (key : string)
    (w w' : World) :
  stopRemoved containerList key w = Done (tt, w') ->
  stops w w' /\
  (existsb (fun cont => String.eqb (ID cont) key) containerList = false ->
   forall th m, statsThreads w !! key = Some th -> heap w !! th = Some m ->
   heap w' !! th = Some (stopped m)).
Proof.
  unfold stopRemoved, ThreadList.Get. prog_unfold.
  destruct (existsb _ containerList); cbn.
  { intros [= <-]. split; [apply stops_refl|discriminate]. }
  destruct (statsThreads w !! key) as [th|] eqn:Hkey; cbn.
  2:{ intros [= <-]. split; [apply stops_refl|discriminate]. }
  destruct (heap w !! th) as [m|] eqn:Hth; cbn; [|discriminate].
  rewrite Stop_spec. cbn.
  assert (Hst : forall out, stops w (set_output out
              (set_heap (<[th := stopped m]> (heap w)) w))).
  { intros out. split; [reflexivity|]. cbn. intros l m0 Hl.
    destruct (decide (l = th)) as [->|Hne].
    - right. rewrite lookup_insert_eq. congruence.
    - left. rewrite lookup_insert_ne by congruence. exact Hl. }
  destruct (cli m ≫= closeErr); cbn; intros [= <-];
    (split; [apply Hst|]); intros _ th' m' [= <-] Hm'; cbn;
    rewrite lookup_insert_eq; congruence.
Qed.

Lemma absent_existsb (containerList : list Container) (key : string) :
  key ∉ map ID containerList ->
  existsb (fun cont => String.eqb (ID cont) key) containerList = false.
Proof.
  induction containerList as [|cont l IH]; [reflexivity|].
  cbn [map existsb]. intros Hn.
  apply not_elem_of_cons in Hn as [Hne Hn].
  rewrite (IH Hn), orb_false_r. apply String.eqb_neq. congruence.
Qed.

Lemma cycle_phases (containerList : list Container) (w w' : World) :
  cycle (ok containerList) w = Done (tt, w') ->
  exists w1, keeps w w1 /\
    forEach (ThreadList.GetKeys (statsThreads w1))
            (stopRemoved containerList) w1 = Done (tt, w').
Proof.
  unfold cycle. intros H.
  apply Prog_bind_Done in H as ([] & w0 & H0 & H).
  apply Prog_bind_Done in H as ([] & w1 & H1 & H).
  apply Prog_bind_Done in H as (wx & w2 & H2 & H).
  injection H2 as <- <-.
  exists w1. split; [|exact H].
  apply keeps_trans with w0.
  - unfold Gauge_Set, modifyW in H0. injection H0 as <-. split; auto.
  - revert H1. apply forEach_preserves;
      [apply keeps_refl|apply keeps_trans|apply startMonitor_keeps].
Qed.

Lemma deleteLabeledMetric_registry (labels : gmap string string)
    (vectors : list GaugeVec) (w w' : World) :
  deleteLabeledMetric labels vectors w = Done (tt, w') ->
  statsThreads w' = statsThreads w.
Proof.
  unfold deleteLabeledMetric.
  apply (forEach_preserves (fun w w' => statsThreads w' = statsThreads w));
    [reflexivity|congruence|].
  intros vector w0 w0'. prog_unfold. cbn -[DeletePartialMatch Nat.leb].
  destruct (DeletePartialMatch _ _) as [g n].
  destruct (Nat.leb n 0); cbn; intros [= <-]; reflexivity.
Qed.

Lemma containerStopped_deletes (rev : Revision) (containerId : string)
    (w w' : World) :
  containerStopped rev containerId w = Done (tt, w') ->
  statsThreads w' !! containerId = None.
Proof.
  unfold containerStopped, ThreadList.Get, ThreadList.Del. intros H.
  apply Prog_bind_Done in H as (s & w0 & Hs & H).
  apply slice_Done in Hs as (_ & _ & ->).
  apply Prog_bind_Done in H as ([] & w1 & H1 & H).
  unfold println, modifyW in H1. injection H1 as <-.
  apply Prog_bind_Done in H as (wx & w2 & H2 & H).
  injection H2 as <- <-. cbn [statsThreads set_output] in H.
  destruct (statsThreads w !! containerId) as [thread|] eqn:Hreg.
  2:{ unfold println, modifyW in H. injection H as <-. exact Hreg. }
  apply Prog_bind_Done in H as (er & w3 & H3 & H).
  apply Prog_bind_Done in H as ([] & w4 & H4 & H).
  apply Prog_bind_Done in H as ([] & w5 & H5 & H).
  apply Prog_bind_Done in H as (name & w6 & H6 & H).
  assert (Hcall : forall (A : Type) (method : Task A) th wa wb (a : A),
             call th method wa = Done (a, wb) ->
             statsThreads wb = statsThreads wa).
  { intros A method th wa wb a. unfold call. prog_unfold. cbn.
    destruct (heap wa !! th); [|discriminate].
    destruct (method _) as [[a' m'] evs]. intros [= _ <-]. reflexivity. }
  assert (H45 : statsThreads w4 = statsThreads w3).
  { destruct er; unfold println, modifyW, mret, Prog_ret in H4;
      injection H4 as <-; reflexivity. }
  unfold modifyW in H5. injection H5 as <-.
  apply Hcall in H3, H6. cbn [statsThreads set_statsThreads] in H6.
  assert (Hdel : statsThreads w6 !! containerId = None).
  { rewrite H6. apply lookup_delete_eq. }
  destruct name as [[optName [nameValue| | |]]|]; try discriminate H.
  apply Prog_bind_Done in H as (id12 & w7 & H7 & H).
  apply slice_Done in H7 as (_ & _ & ->).
  apply deleteLabeledMetric_registry in H. congruence.
Qed.

(** What a completed cycle leaves of a registered monitor. *)
Lemma cycle_effect (rev : Revision)
    (containerList : list Container) (w w' : World)
    (id : string) (th : nat) (m : TContainerMonitor) :
  cycle (ok containerList) w = Done (tt, w') ->
  statsThreads w !! id = Some th ->
  heap w !! th = Some m ->
  statsThreads w' !! id = Some th /\
  (id ∉ map ID containerList -> heap w' !! th = Some (stopped m)) /\
  (forall w'', containerStopped rev id w' = Done (tt, w'') ->
               statsThreads w'' !! id = None).
Proof.
  intros Hc Hid Hth.
  destruct (cycle_phases _ _ _ Hc) as (w1 & [Hreg1 Hheap1] & Hloop).
  assert (Hst : stops w1 w').
  { revert Hloop. apply forEach_preserves;
      [apply stops_refl|apply stops_trans|].
    intros key wa wb Hk. apply (stopRemoved_stops _ _ _ _ Hk). }
  destruct Hst as [Hreg Hheap].
  split; [rewrite Hreg; auto|]. split.
  - intros Habs.
    assert (Hin : id ∈ ThreadList.GetKeys (statsThreads w1)).
    { unfold ThreadList.GetKeys. apply elem_of_elements, elem_of_dom.
      rewrite (Hreg1 _ _ Hid). eauto. }
    apply list_elem_of_split in Hin as (l1 & l2 & Hl). rewrite Hl in Hloop.
    apply forEach_app in Hloop as (wa & Ha & Hb).
    cbn [forEach] in Hb. apply Prog_bind_Done in Hb as ([] & wb & Hb & Hc2).
    assert (Hsa : stops w1 wa).
    { revert Ha. apply forEach_preserves;
        [apply stops_refl|apply stops_trans|].
      intros key wx wy Hk. apply (stopRemoved_stops _ _ _ _ Hk). }
    assert (Hsb : stops wb w').
    { revert Hc2. apply forEach_preserves;
        [apply stops_refl|apply stops_trans|].
      intros key wx wy Hk. apply (stopRemoved_stops _ _ _ _ Hk). }
    destruct Hsa as [Hra Hha]. destruct Hsb as [Hrb Hhb].
    destruct (stopRemoved_stops _ _ _ _ Hb) as [_ Hstop].
    specialize (Hstop (absent_existsb _ _ Habs) th).
    assert (Hwb : heap wb !! th = Some (stopped m)).
    { destruct (Hha th m (Hheap1 _ _ Hth)) as [Hm|Hm].
      - apply (Hstop m); [rewrite Hra; auto|exact Hm].
      - rewrite <- (stopped_idemp m).
        apply (Hstop (stopped m)); [rewrite Hra; auto|exact Hm]. }
    destruct (Hhb _ _ Hwb) as [H|H]; [exact H|].
    rewrite stopped_idemp in H. exact H.
  - intros w''. apply containerStopped_deletes.
Qed.

Lemma forEach_total {A : Type} (I : World -> Prop) (P : A -> Prop)
    (body : A -> Prog unit) :
  (forall x w, P x -> I w -> exists w', body x w = Done (tt, w') /\ I w') ->
  forall l, Forall P l ->
  forall w, I w -> exists w', forEach l body w = Done (tt, w') /\ I w'.
Proof.
  intros Hbody l Hl. induction Hl as [|x l Hx Hl IH]; intros w Hw.
  - exists w. split; [reflexivity|exact Hw].
  - destruct (Hbody x w Hx Hw) as (w1 & H1 & Hw1).
    destruct (IH w1 Hw1) as (w2 & H2 & Hw2).
    exists w2. split; [|exact Hw2].
    cbn [forEach]. rewrite Prog_bind_unfold, H1. exact H2.
Qed.

Lemma startMonitor_total (cont : Container) (w : World) :
  (12 <= String.length (ID cont))%nat -> wf w ->
  exists w', startMonitor cont w = Done (tt, w') /\ wf w'.
Proof.
  intros Hlong Hwf.
  unfold startMonitor, ThreadList.Put, ThreadList.Exists, slice. prog_unfold.
  rewrite (proj2 (Nat.leb_le _ _) Hlong).
  cbn -[String.substring].
  case_bool_decide as Hex; [eauto|].
  rewrite lookup_insert_eq.
  destruct (Exec _ _) as [[e m'] evs]. cbn -[String.substring].
  assert (Hheap : forall th, is_Some (heap w !! th) ->
            is_Some (<[fresh (dom (heap w)) := m']>
              (<[fresh (dom (heap w)) := newMonitor (ID cont)]> (heap w))
              !! th)).
  { intros th Hth. rewrite !lookup_insert_is_Some.
    destruct (decide (fresh (dom (heap w)) = th)); naive_solver. }
  destruct e as [e|]; cbn -[String.substring].
  { eexists. split; [reflexivity|]. intros id th Hid. cbn. eauto. }
  rewrite bool_decide_eq_false_2 by exact Hex. cbn -[String.substring].
  eexists. split; [reflexivity|]. intros id th. cbn.
  rewrite lookup_insert. case_decide as Hd.
  - intros [= <-]. rewrite lookup_insert_eq. eauto.
  - intros Hid. eauto.
Qed.

Lemma stopRemoved_total (containerList : list Container) (key : string)
    (w : World) :
  wf w -> exists w', stopRemoved containerList key w = Done (tt, w') /\ wf w'.
Proof.
  intros Hwf. unfold stopRemoved, ThreadList.Get. prog_unfold.
  destruct (existsb _ containerList); cbn; [eauto|].
  destruct (statsThreads w !! key) as [th|] eqn:Hkey; cbn; [|eauto].
  destruct (Hwf _ _ Hkey) as [m Hm]. rewrite Hm. cbn.
  rewrite Stop_spec. cbn.
  assert (Hwf' : forall out, wf (set_output out
              (set_heap (<[th := stopped m]> (heap w)) w))).
  { intros out id th' Hid. cbn in *. rewrite lookup_insert_is_Some.
    destruct (decide (th = th')); naive_solver. }
  destruct (cli m ≫= closeErr); cbn; eexists; (split; [reflexivity|]);
    apply Hwf'.
Qed.

Lemma cycle_total (containerList : list Container) (w : World) :
  wf w ->
  Forall (fun cont => (12 <= String.length (ID cont))%nat) containerList ->
  exists w', cycle (ok containerList) w = Done (tt, w') /\ wf w'.
Proof.
  intros Hwf Hlong. unfold cycle.
  rewrite Prog_bind_unfold. unfold Gauge_Set at 1, modifyW at 1.
  rewrite Prog_bind_unfold.
  edestruct (forEach_total wf _ startMonitor
               (fun cont w Hc Hw => startMonitor_total cont w Hc Hw)
               containerList Hlong) as (w1 & H1 & Hw1);
    [|rewrite H1].
  { intros id th Hid. cbn in *. eauto. }
  rewrite Prog_bind_unfold. cbn [getW].
  apply (forEach_total wf (fun _ => True) (stopRemoved containerList)
           (fun key w _ Hw => stopRemoved_total containerList key w Hw)
           (ThreadList.GetKeys (statsThreads w1)));
    [apply Forall_forall; auto|exact Hw1].
Qed.

Lemma deleteLabeledMetric_total (labels : gmap string string)
    (vectors : list GaugeVec) (w : World) :
  exists w', deleteLabeledMetric labels vectors w = Done (tt, w').
Proof.
  unfold deleteLabeledMetric.
  edestruct (forEach_total (fun _ => True) (fun _ : GaugeVec => True))
    as (w' & H & _); [| |exact I|exists w'; exact H].
  - intros vector w0 _ _. prog_unfold. cbn -[DeletePartialMatch Nat.leb].
    destruct (DeletePartialMatch _ _) as [g n].
    destruct (Nat.leb n 0); cbn; eauto.
  - apply Forall_forall. auto.
Qed.

(** On a well-formed state [containerStopped] completes for an id of at
    least 12 characters, in either revision. *)
Lemma containerStopped_total (rev : Revision) (containerId : string)
    (w : World) :
  rev = rev1 \/ rev = rev2 ->
  (12 <= String.length containerId)%nat ->
  wf w ->
  exists w', containerStopped rev containerId w = Done (tt, w').
Proof.
  intros Hrev Hlong Hwf.
  assert (Hslice : forall w0, slice containerId 12 w0
            = Done (String.substring 0 12 containerId, w0)).
  { intros w0. unfold slice. rewrite (proj2 (Nat.leb_le _ _) Hlong).
    reflexivity. }
  assert (Hname : forall m, GetOpt rev "name" m =
            (Some {| Opt.Name := "name"; Opt.Value := Opt.VString (Name m) |},
             m, [])).
  { intros m. destruct Hrev as [-> | ->]; reflexivity. }
  unfold containerStopped, ThreadList.Get, ThreadList.Del.
  rewrite Prog_bind_unfold, Hslice.
  rewrite Prog_bind_unfold. unfold println at 1, modifyW at 1.
  rewrite Prog_bind_unfold. cbn [getW statsThreads set_output].
  destruct (statsThreads w !! containerId) as [thread|] eqn:Hreg;
    [|unfold println, modifyW; eauto].
  destruct (Hwf _ _ Hreg) as [m Hm].
  rewrite Prog_bind_unfold. unfold call at 1.
  rewrite Prog_bind_unfold. cbn [getW heap set_output]. rewrite Hm, Stop_spec.
  rewrite Prog_bind_unfold. unfold modifyW at 1.
  unfold mret at 1, Prog_ret at 1.
  set (w1 := set_output _ _).
  assert (exists w2, (match cli m ≫= closeErr with
                      | Some er =>
                          println "Error stopping container monitor:" (Some er)
                      | None => mret ()
                      end) w1 = Done (tt, w2) /\
                     heap w2 !! thread = Some (stopped m))
    as (w2 & Hw2 & Hheap2).
  { destruct (cli m ≫= closeErr); eexists; (split; [reflexivity|]);
      cbn; apply lookup_insert_eq. }
  rewrite Prog_bind_unfold, Hw2.
  rewrite Prog_bind_unfold. unfold modifyW at 1.
  rewrite Prog_bind_unfold. unfold call at 1.
  rewrite Prog_bind_unfold. cbn [getW heap set_statsThreads].
  rewrite Hheap2, Hname.
  rewrite Prog_bind_unfold. unfold modifyW at 1.
  unfold mret at 1, Prog_ret at 1.
  rewrite Prog_bind_unfold, Hslice.
  apply deleteLabeledMetric_total.
Qed.


(** The handler of a stopped monitor's own loop is what takes its id out of
    the registry. *)
Lemma own_loop_deregisters (normalizeLabel : string -> string)
    (labelFields : list string) (rev : Revision) (th : nat)
    (m : TContainerMonitor) (t : Tick) (ts : list Tick) (w w' : World)
    (r : bool) :
  rev = rev1 \/ rev = rev2 ->
  OnRemove m = Some clb_containerStopped ->
  heap w !! th = Some (stopped m) ->
  runReadStream normalizeLabel labelFields rev th
    {| opened := None; ticks := t :: ts |} w = Done (r, w') ->
  r = true /\ statsThreads w' !! Id m = None.
Proof.
  intros Hrev Hrem Hheap. unfold runReadStream.
  rewrite Prog_bind_unfold. cbn [getW]. rewrite Hheap.
  assert (Hrs : readStream rev {| opened := None; ticks := t :: ts |}
                  (stopped m)
                = (true, stopped m, [CallOnRemove clb_containerStopped (Id m)])).
  { destruct (readStream_stopped t ts m) as [H1 H2].
    unfold removal in H1, H2. rewrite Hrem in H1, H2.
    destruct Hrev as [-> | ->]; assumption. }
  rewrite Hrs. intros H.
  apply Prog_bind_Done in H as ([] & w1 & H1 & H).
  apply Prog_bind_Done in H as ([] & w2 & H2 & H).
  injection H as <- <-. split; [reflexivity|].
  cbn [forEach handle] in H2.
  apply Prog_bind_Done in H2 as ([] & w3 & H3 & H2).
  injection H2 as <-.
  apply (containerStopped_deletes _ _ _ _ H3).
Qed.

(** C7. A cycle over a well-formed state and ids of at least 12 characters
    completes, in a well-formed state.  A completed cycle leaves every
    registered id registered with its handle, and has stopped the monitor of
    each registered id that the container list lacks; the id leaves the
    registry in [containerStopped], the handler of the monitor's
    [OnRemove], which completes under the same conditions. *)
Theorem cycle_stops_but_keeps (rev : Revision)
    (containerList : list Container) (w : World) :
  (wf w ->
   Forall (fun cont => (12 <= String.length (ID cont))%nat) containerList ->
   exists w', cycle (ok containerList) w = Done (tt, w') /\ wf w') /\
  (forall w' id th m,
     cycle (ok containerList) w = Done (tt, w') ->
     statsThreads w !! id = Some th ->
     heap w !! th = Some m ->
     statsThreads w' !! id = Some th /\
     (id ∉ map ID containerList -> heap w' !! th = Some (stopped m)) /\
     (forall w'', containerStopped rev id w' = Done (tt, w'') ->
                  statsThreads w'' !! id = None) /\
     (rev = rev1 \/ rev = rev2 -> (12 <= String.length id)%nat -> wf w' ->
      exists w'', containerStopped rev id w' = Done (tt, w''))).
Proof.
  split.
  - apply cycle_total.
  - intros w' id th m Hc Hid Hth.
    destruct (cycle_effect rev _ _ _ _ _ _ Hc Hid Hth) as (H1 & H2 & H3).
    split; [exact H1|]. split; [exact H2|]. split; [exact H3|].
    intros Hrev Hlong Hwf. apply containerStopped_total; assumption.
Qed.

Lemma wf_worldAB : wf worldAB.
Proof.
  intros id th. unfold worldAB. cbn [statsThreads heap].
  intros H.
  apply lookup_insert_Some in H as [[_ <-]|[_ H]];
    [rewrite lookup_insert_eq; eauto|].
  apply lookup_insert_Some in H as [[_ <-]|[_ H]];
    [|rewrite lookup_empty in H; discriminate].
  rewrite lookup_insert_ne by discriminate.
  rewrite lookup_insert_eq. eauto.
Qed.

Lemma cycle_stops_but_keeps_witness :
  (exists w', cycle (ok [containerA]) worldAB = Done (tt, w') /\ wf w') /\
  cycle (ok [containerA]) worldAB = Done (tt, worldAB_after) /\
  statsThreads worldAB_after !! idA = Some 0%nat /\
  statsThreads worldAB_after !! idB = Some 1%nat /\
  heap worldAB_after !! 1%nat = Some (stopped (startedMonitor idB)) /\
  (forall w'', containerStopped rev1 idB worldAB_after = Done (tt, w'') ->
               statsThreads w'' !! idB = None).
Proof.
  assert (Hc : cycle (ok [containerA]) worldAB = Done (tt, worldAB_after))
    by (vm_compute; reflexivity).
  destruct (cycle_stops_but_keeps rev1 [containerA] worldAB) as [Htotal H].
  destruct (H worldAB_after idB 1%nat (startedMonitor idB) Hc
              eq_refl eq_refl) as (HB & Hstop & Hdel & _).
  destruct (H worldAB_after idA 0%nat (startedMonitor idA) Hc
              eq_refl eq_refl) as (HA & _ & _).
  split.
  { apply Htotal; [exact wf_worldAB|].
    constructor; [cbn; lia|constructor]. }
  split; [exact Hc|]. split; [exact HA|]. split; [exact HB|].
  split; [|exact Hdel].
  apply Hstop. cbn [map ID containerA]. intros Hin.
  apply list_elem_of_singleton in Hin. discriminate Hin.
Defined.


(** ** The ways a loop ends, on the sample ticks

    A stop request, the end of the stream and a failed status query each
    end the first revision's loop with one [OnRemove] call; the second
    revision does so for the first two. *)
Lemma termination_causes :
  let run1 ts := Rev1.readStream {| opened := None; ticks := ts |}
                   (startedMonitor idA) in
  let run2 ts := Rev2.readStream {| opened := None; ticks := ts |}
                   (startedMonitor idA) in
  removals (snd (run1 [goodTick; stopTick])) = 1%nat /\
  removals (snd (run1 [goodTick; eofTick])) = 1%nat /\
  removals (snd (run1 [goodTick; failedInspect])) = 1%nat /\
  removals (snd (run2 [goodTick; stopTick])) = 1%nat /\
  removals (snd (run2 [goodTick; eofTick])) = 1%nat /\
  fst (fst (run1 [goodTick; goodTick])) = false /\
  removals (snd (run1 [goodTick; goodTick])) = 0%nat.
Proof. cbv zeta. repeat split; vm_compute; reflexivity. Qed.

(** * Further properties of the read loop *)

Lemma set_Name_same (m : TContainerMonitor) : set_Name (Name m) m = m.
Proof. destruct m. reflexivity. Qed.

Lemma set_Name_twice (a b : string) (m : TContainerMonitor) :
  set_Name a (set_Name b m) = set_Name a m.
Proof. reflexivity. Qed.

Lemma publish_exact (statistic : TContainerStatistic)
    (containerInspect : ContainerJSON) (m : TContainerMonitor) :
  publish statistic containerInspect m =
    (tt,
     set_Name (if String.eqb (Name m) "" then Stat.Name statistic
               else Name m) m,
     match OnStatRead m with
     | Some f =>
         [CallOnStatRead f
            (Stat.set_Labels (Labels m)
               (Stat.set_RunningState (State_Status containerInspect)
                  statistic))]
     | None => []
     end).
Proof.
  unfold publish. task_unfold.
  destruct (String.eqb (Name m) "") eqn:E; cbn;
    destruct (OnStatRead m); cbn; rewrite ?set_Name_same; reflexivity.
Qed.

Lemma ends_cases (t : Tick) :
  ends t =
    if stopRequested t then true
    else match decoded t, inspected t with
         | ok _, ok _ => false
         | _, _ => true
         end.
Proof. unfold ends. destruct (stopRequested t); reflexivity. Qed.

Lemma Rev1_loop_closed_form (ts : list Tick) :
  forall m, stop m = false ->
  Rev1.loop ts m =
    (existsb ends ts,
     (let m1 := set_Name (learnName (Name m) (published ts)) m in
      match List.find ends ts with
      | Some t => if stopRequested t then stopped m1 else m1
      | None => m1
      end),
     flat_map (snapshot m) (published ts) ++
     match List.find ends ts with
     | Some t => endLog1 t
     | None => []
     end).
Proof.
  induction ts as [|t ts IH]; intros m Hm.
  - cbn. rewrite set_Name_same. reflexivity.
  - cbn [Rev1.loop existsb List.find published].
    rewrite bind_unfold, interleave_spec, ends_cases. unfold endLog1.
    destruct (stopRequested t) eqn:Hreq; cbn [orb].
    + rewrite bind_unfold. unfold get.
      destruct (stopped_fields m) as (Hs & _). rewrite Hs, Hreq.
      cbn [learnName flat_map app]. rewrite set_Name_same. reflexivity.
    + rewrite bind_unfold. unfold get. rewrite Hm.
      destruct (decoded t) as [statistic|er] eqn:Hdec.
      2:{ rewrite bind_unfold, Hreq, Hdec. unfold emit, mret, Task_ret.
          cbn [learnName flat_map app]. rewrite set_Name_same.
          reflexivity. }
      destruct (inspected t) as [containerInspect|e] eqn:Hins.
      2:{ rewrite bind_unfold, Hreq, Hdec, Hins. unfold emit, mret, Task_ret.
          cbn [learnName flat_map app]. rewrite set_Name_same. reflexivity. }
      rewrite bind_unfold, publish_exact.
      rewrite IH by exact Hm.
      cbn [learnName flat_map Name set_Name]. rewrite Hdec.
      unfold snapshot at 2. rewrite Hdec, Hins.
      cbn [orb app]. rewrite !set_Name_twice.
      destruct (OnStatRead m) eqn:Hf; reflexivity.
Qed.

Lemma Rev2_loop_closed_form (ts : list Tick) :
  forall m, stop m = false ->
  Rev2.loop ts m =
    (Rev2_exit ts,
     (let m1 := set_Name (learnName (Name m) (published ts)) m in
      match List.find ends ts with
      | Some t =>
          if stopRequested t then stopped m1
          else match decoded t with
               | err _ => set_stop true m1
               | ok _ => m1
               end
      | None => m1
      end),
     flat_map (snapshot m) (published ts) ++
     match List.find ends ts with
     | Some t => endLog2 t
     | None => []
     end).
Proof.
  unfold Rev2_exit.
  induction ts as [|t ts IH]; intros m Hm.
  - cbn. rewrite set_Name_same. reflexivity.
  - cbn [Rev2.loop List.find published].
    rewrite bind_unfold, interleave_spec, ends_cases. unfold endLog2.
    destruct (stopRequested t) eqn:Hreq; cbn [orb].
    + rewrite bind_unfold. unfold get.
      destruct (stopped_fields m) as (Hs & _). rewrite Hs, Hreq.
      cbn [learnName flat_map app]. rewrite set_Name_same. reflexivity.
    + rewrite bind_unfold. unfold get. rewrite Hm.
      destruct (decoded t) as [statistic|er] eqn:Hdec.
      2:{ rewrite !bind_unfold, Hreq, Hdec. unfold modify, mret, Task_ret.
          cbn [learnName flat_map]. rewrite set_Name_same.
          destruct er; reflexivity. }
      destruct (inspected t) as [containerInspect|e] eqn:Hins.
      2:{ rewrite bind_unfold, Hreq, Hdec, Hins. unfold emit, mret, Task_ret.
          cbn [learnName flat_map app]. rewrite set_Name_same. reflexivity. }
      rewrite bind_unfold, publish_exact.
      rewrite IH by exact Hm.
      cbn [learnName flat_map Name set_Name]. rewrite Hdec.
      unfold snapshot at 2. rewrite Hdec, Hins.
      cbn [orb app]. rewrite !set_Name_twice.
      destruct (OnStatRead m) eqn:Hf; reflexivity.
Qed.

Lemma removal_set_Name (a : string) (m : TContainerMonitor) :
  removal (set_Name a m) = removal m.
Proof. reflexivity. Qed.

Lemma removal_stopped (m : TContainerMonitor) : removal (stopped m) = removal m.
Proof.
  destruct (stopped_fields m) as (_ & Hid & _ & _ & _ & Hr & _).
  unfold removal. rewrite Hid, Hr. reflexivity.
Qed.

Lemma Rev1_readStream_form (ts : list Tick) (m : TContainerMonitor) :
  stop m = false ->
  Rev1.readStream {| opened := None; ticks := ts |} m =
    (existsb ends ts,
     (let m1 := set_Name (learnName (Name m) (published ts)) m in
      match List.find ends ts with
      | Some t => if stopRequested t then stopped m1 else m1
      | None => m1
      end),
     flat_map (snapshot m) (published ts) ++
     match List.find ends ts with
     | Some t => endLog1 t ++ removal m
     | None => []
     end).
Proof.
  intros Hm. unfold Rev1.readStream. cbn [opened ticks].
  rewrite bind_unfold, Rev1_loop_closed_form by exact Hm.
  assert (Hex : existsb ends ts = if List.find ends ts is Some _ then true else false).
  { clear. induction ts as [|t ts IH]; [reflexivity|].
    cbn [existsb List.find]. destruct (ends t); [reflexivity|exact IH]. }
  rewrite Hex. cbv zeta.
  destruct (List.find ends ts) as [t|].
  - rewrite bind_unfold, notify_removed_spec. unfold mret, Task_ret.
    rewrite app_nil_r, <- app_assoc. f_equal. f_equal. f_equal.
    destruct (stopRequested t);
      rewrite ?removal_stopped, removal_set_Name; reflexivity.
  - unfold mret, Task_ret. rewrite !app_nil_r. reflexivity.
Qed.

(** X1. The first revision's read loop, once the stream is open: it
    returns exactly if some tick ends it; its trace is one [OnStatRead] call
    per tick before that one, each with the monitor's labels and the
    inspected status, then the ending tick's log line and the [OnRemove]
    call, which is the last event.  The monitor keeps everything but its
    name, learned from the published records, and the effect of a stop
    request. *)
Theorem Rev1_readStream_closed_form (ts : list Tick) (m : TContainerMonitor) :
  stop m = false ->
  Rev1.readStream {| opened := None; ticks := ts |} m =
    (existsb ends ts,
     (let m1 := set_Name (learnName (Name m) (published ts)) m in
      match List.find ends ts with
      | Some t => if stopRequested t then stopped m1 else m1
      | None => m1
      end),
     flat_map (snapshot m) (published ts) ++
     match List.find ends ts with
     | Some t => endLog1 t ++ removal m
     | None => []
     end).
Proof. apply Rev1_readStream_form. Qed.

Lemma Rev1_readStream_closed_form_witness :
  Rev1.readStream {| opened := None; ticks := [goodTick; eofTick; goodTick] |}
    (startedMonitor idA) =
    (true, startedMonitor idA,
     [CallOnStatRead clb_containerStatisticRead
        (Stat.set_Labels (Config_Labels webInfo)
           (Stat.set_RunningState "running"
              (cpuSample 150 100 2000 1000 [])));
      Log "Error reading from input:" (Some io_EOF);
      CallOnRemove clb_containerStopped idA]).
Proof.
  rewrite (Rev1_readStream_closed_form [goodTick; eofTick; goodTick]
             (startedMonitor idA) eq_refl).
  reflexivity.
Defined.

Lemma Rev2_readStream_form (ts : list Tick) (m : TContainerMonitor) :
  stop m = false ->
  Rev2.readStream {| opened := None; ticks := ts |} m =
    (existsb ends ts,
     (let m1 := set_Name (learnName (Name m) (published ts)) m in
      match List.find ends ts with
      | Some t =>
          if stopRequested t then stopped m1
          else match decoded t with
               | err _ => set_stop true m1
               | ok _ => m1
               end
      | None => m1
      end),
     flat_map (snapshot m) (published ts) ++
     match List.find ends ts with
     | Some t =>
         endLog2 t ++
         (if stopRequested t then removal m
          else match decoded t with
               | err _ => removal m
               | ok _ => []
               end)
     | None => []
     end).
Proof.
  intros Hm. unfold Rev2.readStream. cbn [opened ticks].
  rewrite bind_unfold, Rev2_loop_closed_form by exact Hm.
  assert (Hex : existsb ends ts = if List.find ends ts is Some _ then true else false).
  { clear. induction ts as [|t ts IH]; [reflexivity|].
    cbn [existsb List.find]. destruct (ends t); [reflexivity|exact IH]. }
  rewrite Hex. unfold Rev2_exit. cbv zeta.
  destruct (List.find ends ts) as [t|].
  - destruct (stopRequested t).
    + rewrite bind_unfold, notify_removed_spec. unfold mret, Task_ret.
      rewrite app_nil_r, <- app_assoc, removal_stopped, removal_set_Name.
      reflexivity.
    + destruct (decoded t).
      * unfold mret, Task_ret. rewrite !app_nil_r. reflexivity.
      * rewrite bind_unfold, notify_removed_spec. unfold mret, Task_ret.
        rewrite app_nil_r, <- app_assoc. reflexivity.
  - unfold mret, Task_ret. rewrite !app_nil_r. reflexivity.
Qed.

(** X2. The second revision's read loop, once the stream is open: the same
    [OnStatRead] calls; the end of the stream is not logged; a stop request
    and a failed decode end it with the [OnRemove] call and the stop flag
    set, a failed status query ends it with the log line alone. *)
Theorem Rev2_readStream_closed_form (ts : list Tick) (m : TContainerMonitor) :
  stop m = false ->
  Rev2.readStream {| opened := None; ticks := ts |} m =
    (existsb ends ts,
     (let m1 := set_Name (learnName (Name m) (published ts)) m in
      match List.find ends ts with
      | Some t =>
          if stopRequested t then stopped m1
          else match decoded t with
               | err _ => set_stop true m1
               | ok _ => m1
               end
      | None => m1
      end),
     flat_map (snapshot m) (published ts) ++
     match List.find ends ts with
     | Some t =>
         endLog2 t ++
         (if stopRequested t then removal m
          else match decoded t with
               | err _ => removal m
               | ok _ => []
               end)
     | None => []
     end).
Proof. apply Rev2_readStream_form. Qed.

Lemma Rev2_readStream_closed_form_witness :
  Rev2.readStream {| opened := None; ticks := [goodTick; eofTick; goodTick] |}
    (startedMonitor idA) =
    (true, set_stop true (startedMonitor idA),
     [CallOnStatRead clb_containerStatisticRead
        (Stat.set_Labels (Config_Labels webInfo)
           (Stat.set_RunningState "running"
              (cpuSample 150 100 2000 1000 [])));
      CallOnRemove clb_containerStopped idA]).
Proof.
  rewrite (Rev2_readStream_closed_form [goodTick; eofTick; goodTick]
             (startedMonitor idA) eq_refl).
  reflexivity.
Defined.


Lemma readStream_running_fields (r : Revision) (ts : list Tick)
    (m : TContainerMonitor) :
  r = rev1 \/ r = rev2 ->
  stop m = false ->
  exists m1 : TContainerMonitor,
    snd (fst (readStream r {| opened := None; ticks := ts |} m)) = m1 /\
    Id m1 = Id m /\ Labels m1 = Labels m /\
    OnStatRead m1 = OnStatRead m /\ OnRemove m1 = OnRemove m /\
    Name m1 = learnName (Name m) (published ts).
Proof.
  intros Hr Hm.
  set (m0 := set_Name (learnName (Name m) (published ts)) m).
  assert (H0 : Id m0 = Id m /\ Labels m0 = Labels m /\
               OnStatRead m0 = OnStatRead m /\ OnRemove m0 = OnRemove m /\
               Name m0 = learnName (Name m) (published ts))
    by (repeat split).
  assert (Hst : Id (stopped m0) = Id m /\ Labels (stopped m0) = Labels m /\
                OnStatRead (stopped m0) = OnStatRead m /\
                OnRemove (stopped m0) = OnRemove m /\
                Name (stopped m0) = learnName (Name m) (published ts)).
  { destruct (stopped_fields m0) as (_ & -> & -> & -> & -> & -> & _).
    exact H0. }
  destruct Hr as [-> | ->]; cbn [readStream rev1 rev2].
  - rewrite Rev1_readStream_form by exact Hm. cbn [fst snd].
    fold m0. destruct (List.find ends ts) as [t|]; [|eauto].
    destruct (stopRequested t); eauto.
  - rewrite Rev2_readStream_form by exact Hm. cbn [fst snd].
    fold m0. destruct (List.find ends ts) as [t|]; [|eauto].
    destruct (stopRequested t); [eauto|].
    destruct (decoded t); eauto.
Qed.



(** * Further properties of [main.go] *)

(** ** Strings *)

Lemma strings_Split_nonempty (s : string) (sep : ascii) :
  strings_Split s sep <> [].
Proof.
  destruct s as [|c s]; [discriminate|]. cbn [strings_Split].
  destruct (Ascii.eqb c sep); [discriminate|].
  destruct (strings_Split s sep); discriminate.
Qed.

Lemma append_nil_l (s : string) : ("" ++ s)%string = s.
Proof. reflexivity. Qed.

Lemma append_cons_l (c : ascii) (a s : string) :
  (String c a ++ s)%string = String c (a ++ s).
Proof. reflexivity. Qed.

Lemma strings_Split_app (a b : string) (sep : ascii) :
  strings_Split (a ++ String sep b) sep
  = strings_Split a sep ++ strings_Split b sep.
Proof.
  induction a as [|c a IH].
  - rewrite append_nil_l. cbn [strings_Split]. rewrite Ascii.eqb_refl.
    reflexivity.
  - rewrite append_cons_l. cbn [strings_Split]. rewrite IH.
    destruct (Ascii.eqb c sep); [reflexivity|].
    pose proof (strings_Split_nonempty a sep) as Hne.
    destruct (strings_Split a sep) as [|piece pieces]; [congruence|].
    reflexivity.
Qed.

Lemma strings_Split_word (word : string) (sep : ascii) :
  contains sep word = false -> strings_Split word sep = [word].
Proof.
  induction word as [|c word IH]; [reflexivity|].
  cbn [contains strings_Split]. intros H.
  apply orb_false_elim in H as [Hc Hw]. rewrite Hc, (IH Hw). reflexivity.
Qed.

Lemma strings_Split_pieces (s : string) (sep : ascii) :
  Forall (fun piece => contains sep piece = false) (strings_Split s sep).
Proof.
  induction s as [|c s IH]; [repeat constructor|].
  cbn [strings_Split]. destruct (Ascii.eqb c sep) eqn:Hc.
  - constructor; [reflexivity|exact IH].
  - destruct (strings_Split s sep) as [|piece pieces].
    + constructor; [|constructor]. cbn. rewrite Hc. reflexivity.
    + inversion IH as [|? ? Hp Hps]; subst.
      constructor; [|exact Hps]. cbn. rewrite Hc, Hp. reflexivity.
Qed.

(** X4. [removeFirstSlash] removes the first slash of a string wherever it
    stands and nothing else: a string without a slash is returned as it
    is, and so is the remainder after the first slash, slashes included. *)
Theorem removeFirstSlash_first_only (a b : string) :
  contains "/"%char a = false ->
  removeFirstSlash a = a /\
  removeFirstSlash (a ++ String "/"%char b) = (a ++ b)%string.
Proof.
  induction a as [|c a IH]; intros H.
  - split; reflexivity.
  - cbn [contains] in H. apply orb_false_elim in H as [Hc Ha].
    destruct (IH Ha) as [IH1 IH2].
    rewrite append_cons_l. cbn [removeFirstSlash]. rewrite Hc, IH1, IH2.
    split; reflexivity.
Qed.

Lemma removeFirstSlash_first_only_witness :
  removeFirstSlash "web" = "web" /\
  removeFirstSlash "/web" = "web" /\
  removeFirstSlash "stack/web/1" = "stackweb/1".
Proof.
  split; [|split].
  - apply (removeFirstSlash_first_only "web" ""). reflexivity.
  - apply (removeFirstSlash_first_only "" "web"). reflexivity.
  - apply (removeFirstSlash_first_only "stack" "web/1"). reflexivity.
Defined.

(** X5. The container filter: the labels added are the space-separated
    words of the setting.  None is empty or holds a space; the labels of two
    settings joined by a space are those of the first followed by those of
    the second; a word alone yields itself and the empty setting
    nothing. *)
Theorem filterLabels_words :
  (forall setting label,
      label ∈ filterLabels setting ->
      label <> "" /\ contains " "%char label = false) /\
  (forall a b,
      filterLabels (a ++ String " "%char b)
      = filterLabels a ++ filterLabels b) /\
  (forall word,
      word <> "" -> contains " "%char word = false ->
      filterLabels word = [word]) /\
  filterLabels "" = [].
Proof.
  unfold filterLabels. split; [|split; [|split]].
  - intros setting label Hin. apply list_elem_of_filter in Hin as [Hne Hin].
    split; [exact Hne|].
    pose proof (strings_Split_pieces setting " "%char) as Hall.
    rewrite Forall_forall in Hall. apply Hall, Hin.
  - intros a b. rewrite strings_Split_app. apply filter_app.
  - intros word Hne Hsp. rewrite (strings_Split_word _ _ Hsp).
    rewrite filter_cons_True by exact Hne. reflexivity.
  - reflexivity.
Qed.

Lemma filterLabels_words_witness :
  filterLabels "env=prod  tier=web " = ["env=prod"; "tier=web"] /\
  (forall label, label ∈ filterLabels "env=prod  tier=web " -> label <> "").
Proof.
  destruct filterLabels_words as (Hin & Happ & Hword & Hempty).
  split.
  - change (filterLabels "env=prod  tier=web ")
      with (filterLabels ("env=prod" ++ String " "%char
                            ("" ++ String " "%char
                               ("tier=web" ++ String " "%char "")))).
    rewrite !Happ, Hempty.
    rewrite (Hword "env=prod"), (Hword "tier=web");
      first [reflexivity | discriminate].
  - intros label Hl. apply (Hin _ _ Hl).
Defined.

(** ** The metric handlers *)

Lemma slice_long (s : string) (hi : nat) (w : World) :
  (hi <= String.length s)%nat ->
  slice s hi w = Done (String.substring 0 hi s, w).
Proof.
  intros Hle. unfold slice. rewrite (proj2 (Nat.leb_le _ _) Hle).
  reflexivity.
Qed.

Lemma statLabels_foldl (normalizeLabel : string -> string)
    (stat : TContainerStatistic) (names : list string) :
  forall (labels : gmap string string) (w : World),
  (12 <= String.length (Stat.Id stat))%nat ->
  statLabels normalizeLabel names stat labels w =
    Done (foldl (fun acc labelName =>
                   <[labelKey normalizeLabel labelName
                     := labelValue stat labelName]> acc) labels names, w).
Proof.
  induction names as [|labelName names IH]; intros labels w Hlong.
  - reflexivity.
  - cbn [statLabels foldl]. unfold labelKey at 2, labelValue at 2.
    destruct (String.eqb labelName "id").
    + rewrite Prog_bind_unfold, slice_long by exact Hlong. apply IH, Hlong.
    + destruct (String.eqb labelName "name"); apply IH, Hlong.
Qed.

Lemma foldl_insert_dom (key value : string -> string) (names : list string) :
  forall acc : gmap string string,
  dom (foldl (fun acc n => <[key n := value n]> acc) acc names)
  = dom acc ∪ list_to_set (map key names).
Proof.
  induction names as [|n names IH]; intros acc.
  - cbn. rewrite union_empty_r_L. reflexivity.
  - cbn [foldl map list_to_set]. rewrite IH, dom_insert_L.
    rewrite (comm_L (∪) {[key n]} (dom acc)), <- (assoc_L (∪)).
    reflexivity.
Qed.

Lemma foldl_insert_lookup (key value : string -> string) (k x : string)
    (names : list string) :
  forall acc : gmap string string,
  (acc !! k = Some x \/ exists n, n ∈ names /\ key n = k) ->
  (forall n, n ∈ names -> key n = k -> value n = x) ->
  foldl (fun acc n => <[key n := value n]> acc) acc names !! k = Some x.
Proof.
  induction names as [|n names IH]; intros acc Hin Hval.
  - cbn. destruct Hin as [H|(n & Hn & _)]; [exact H|].
    apply elem_of_nil in Hn. contradiction.
  - cbn [foldl]. apply IH.
    + destruct (decide (key n = k)) as [Hk|Hk].
      * left. rewrite Hk, lookup_insert_eq. f_equal.
        apply Hval; [left|exact Hk].
      * destruct Hin as [H|(n' & Hn' & Hk')].
        -- left. rewrite lookup_insert_ne by exact Hk. exact H.
        -- apply elem_of_cons in Hn' as [->|Hn']; [contradiction|].
           right. eauto.
    + intros n' Hn'. apply Hval. right. exact Hn'.
Qed.

Lemma labelKey_normalized (normalizeLabel : string -> string)
    (labelName : string) :
  normalizeLabel "id" = "id" -> normalizeLabel "name" = "name" ->
  labelKey normalizeLabel labelName = normalizeLabel labelName.
Proof.
  intros Hid Hname. unfold labelKey.
  destruct (String.eqb_spec labelName "id") as [->|_]; [congruence|].
  destruct (String.eqb_spec labelName "name") as [->|_]; congruence.
Qed.

(** X6. The label set built for a record with an id of at least 12
    characters has exactly the label names the vectors were declared with,
    if the normalisation leaves "id" and "name" as they are; if it maps no
    other label to them, the id label is the first 12 characters of the
    record's id and the name label is its name without the first slash. *)
Theorem statLabels_keys (normalizeLabel : string -> string)
    (labelFields : list string) (stat : TContainerStatistic) (w : World) :
  (12 <= String.length (Stat.Id stat))%nat ->
  normalizeLabel "id" = "id" ->
  normalizeLabel "name" = "name" ->
  exists labels,
    statLabels normalizeLabel (scrapeLabels normalizeLabel labelFields) stat ∅ w
    = Done (labels, w) /\
    dom labels = list_to_set (getLabels normalizeLabel labelFields true) /\
    ((forall f, normalizeLabel f = "id" -> f = "id") ->
     labels !! "id" = Some (String.substring 0 12 (Stat.Id stat))) /\
    ((forall f, normalizeLabel f = "name" -> f = "name") ->
     labels !! "name" = Some (removeFirstSlash (Stat.Name stat))).
Proof.
  intros Hlong Hid Hname. eexists. split; [apply statLabels_foldl, Hlong|].
  split; [|split].
  - rewrite foldl_insert_dom. unfold scrapeLabels, getLabels.
    cbn [app map]. rewrite map_map.
    rewrite (map_ext (labelKey normalizeLabel) normalizeLabel)
      by (intros f; apply labelKey_normalized; assumption).
    rewrite dom_empty_L, union_empty_l_L. reflexivity.
  - intros Hinj. apply foldl_insert_lookup.
    + right. exists "id". split; [|reflexivity].
      unfold scrapeLabels, getLabels. cbn [app]. left.
    + intros n _. unfold labelKey, labelValue.
      destruct (String.eqb n "id") eqn:E1; [reflexivity|].
      destruct (String.eqb n "name") eqn:E2; [discriminate|].
      intros Hk. apply Hinj in Hk. subst n. discriminate E1.
  - intros Hinj. apply foldl_insert_lookup.
    + right. exists "name". split; [|reflexivity].
      unfold scrapeLabels, getLabels. cbn [app]. right. left.
    + intros n _. unfold labelKey, labelValue.
      destruct (String.eqb n "id") eqn:E1; [discriminate|].
      destruct (String.eqb n "name") eqn:E2; [reflexivity|].
      intros Hk. apply Hinj in Hk. subst n. discriminate E2.
Qed.

Lemma statLabels_keys_witness :
  exists labels,
    statLabels (fun lbl => lbl) (scrapeLabels (fun lbl => lbl) ["app"])
      webStat ∅ emptyWorld = Done (labels, emptyWorld) /\
    dom labels = list_to_set ["id"; "name"; "app"] /\
    labels !! "id" = Some "aaaaaaaaaaaa" /\
    labels !! "name" = Some "web".
Proof.
  destruct (statLabels_keys (fun lbl => lbl) ["app"] webStat emptyWorld)
    as (labels & H1 & H2 & H3 & H4); [cbn; lia|reflexivity|reflexivity|].
  exists labels. split; [exact H1|]. split; [exact H2|].
  split; [apply H3|apply H4]; intros f Hf; exact Hf.
Defined.

Lemma Gauge_Set_unfold (vec : GaugeVec) (labels : gmap string string)
    (x : float) (w : World) :
  Gauge_Set vec labels x w =
    Done (tt, set_gauges (fun v => if decide (v = vec)
                                   then <[labels := x]> (gauges w v)
                                   else gauges w v) w).
Proof. reflexivity. Qed.

(** X7. For a record with an id of at least 12 characters
    [containerStatisticRead] completes; it sets, in each of the five
    container vectors, the series of the record's label set to the record's
    value and leaves every other series, the container count, the monitors,
    the registry and the output as they were. *)
Theorem containerStatisticRead_publishes (normalizeLabel : string -> string)
    (labelFields : list string) (stat : TContainerStatistic) (w : World) :
  (12 <= String.length (Stat.Id stat))%nat ->
  exists labels w',
    statLabels normalizeLabel (scrapeLabels normalizeLabel labelFields)
      stat ∅ w = Done (labels, w) /\
    containerStatisticRead normalizeLabel labelFields stat w
    = Done (tt, w') /\
    heap w' = heap w /\ statsThreads w' = statsThreads w /\
    output w' = output w /\
    gauges w' containersCount = gauges w containersCount /\
    (forall vec, vec <> containersCount ->
       gauges w' vec !! labels = Some (statValue stat vec) /\
       (forall k, k <> labels -> gauges w' vec !! k = gauges w vec !! k)).
Proof.
  intros Hlong. eexists _, _.
  split; [apply statLabels_foldl, Hlong|].
  unfold containerStatisticRead.
  rewrite Prog_bind_unfold, statLabels_foldl by exact Hlong.
  rewrite !Prog_bind_unfold, !Gauge_Set_unfold.
  split; [reflexivity|].
  cbn [heap statsThreads output gauges set_gauges].
  split; [reflexivity|]. split; [reflexivity|]. split; [reflexivity|].
  split; [reflexivity|].
  intros vec Hvec.
  destruct vec; try contradiction; cbn; split;
    try apply lookup_insert_eq;
    intros k Hk; apply lookup_insert_ne; congruence.
Qed.

Lemma containerStatisticRead_publishes_witness :
  exists labels w',
    containerStatisticRead (fun lbl => lbl) ["app"] webStat emptyWorld
    = Done (tt, w') /\
    gauges w' cpuPercentage !! labels = Some 20%float /\
    gauges w' memLimitVec !! labels = Some 8192%float /\
    gauges w' containersCount = ∅.
Proof.
  destruct (containerStatisticRead_publishes (fun lbl => lbl) ["app"]
              webStat emptyWorld)
    as (labels & w' & _ & Hrun & _ & _ & _ & Hcount & Hvec); [cbn; lia|].
  exists labels, w'. split; [exact Hrun|].
  split; [|split; [|exact Hcount]].
  - destruct (Hvec cpuPercentage) as [H _]; [discriminate|].
    rewrite H. vm_compute. reflexivity.
  - destruct (Hvec memLimitVec) as [H _]; [discriminate|].
    rewrite H. vm_compute. reflexivity.
Defined.

Lemma matches_spec (labels k : gmap string string) :
  matches labels k = true <->
  forall n v, labels !! n = Some v -> k !! n = Some v.
Proof.
  unfold matches. rewrite forallb_forall. split.
  - intros H n v Hn.
    specialize (H (n, v)). cbn in H. rewrite bool_decide_eq_true in H.
    apply H, list_elem_of_In, elem_of_map_to_list, Hn.
  - intros H [n v] Hin. apply bool_decide_eq_true, H.
    apply elem_of_map_to_list, list_elem_of_In, Hin.
Qed.

Lemma matches_id_name (id12 name : string) (k : gmap string string) :
  matches (<["id" := id12]> (<["name" := name]> ∅)) k = true <->
  k !! "id" = Some id12 /\ k !! "name" = Some name.
Proof.
  rewrite matches_spec. split.
  - intros H. split; apply H.
    + apply lookup_insert_eq.
    + rewrite lookup_insert_ne by discriminate. apply lookup_insert_eq.
  - intros [Hid Hname] n v Hn.
    apply lookup_insert_Some in Hn as [[<- <-]|[_ Hn]]; [exact Hid|].
    apply lookup_insert_Some in Hn as [[<- <-]|[_ Hn]]; [exact Hname|].
    rewrite lookup_empty in Hn. discriminate.
Qed.

Lemma DeletePartialMatch_lookup (labels k : gmap string string)
    (g : gmap (gmap string string) float) :
  fst (DeletePartialMatch labels g) !! k =
    if matches labels k then None else g !! k.
Proof.
  unfold DeletePartialMatch. cbn [fst]. rewrite map_lookup_filter.
  destruct (g !! k) as [x|]; cbn; [|destruct (matches labels k); reflexivity].
  destruct (matches labels k) eqn:E.
  - rewrite option_guard_False by (cbn; congruence). reflexivity.
  - rewrite option_guard_True by reflexivity. reflexivity.
Qed.

Lemma deleteLabeledMetric_effect (labels : gmap string string)
    (vectors : list GaugeVec) :
  forall w w',
  deleteLabeledMetric labels vectors w = Done (tt, w') ->
  heap w' = heap w /\ statsThreads w' = statsThreads w /\
  forall vec k,
    gauges w' vec !! k =
      if bool_decide (vec ∈ vectors) && matches labels k then None
      else gauges w vec !! k.
Proof.
  unfold deleteLabeledMetric.
  induction vectors as [|vector vectors IH]; intros w w' H.
  - injection H as <-. repeat split.
  - cbn [forEach] in H. apply Prog_bind_Done in H as ([] & w1 & H1 & H2).
    destruct (IH _ _ H2) as (Hh & Hr & Hg). clear IH H2.
    assert (Hw1 : heap w1 = heap w /\ statsThreads w1 = statsThreads w /\
                  forall vec, gauges w1 vec =
                    if decide (vec = vector)
                    then fst (DeletePartialMatch labels (gauges w vector))
                    else gauges w vec).
    { revert H1. prog_unfold. cbn -[DeletePartialMatch Nat.leb].
      destruct (DeletePartialMatch labels (gauges w vector)) as [g n].
      destruct (Nat.leb n 0); cbn; intros [= <-]; repeat split. }
    destruct Hw1 as (Hh1 & Hr1 & Hg1).
    split; [congruence|]. split; [congruence|].
    intros vec k. rewrite Hg, Hg1.
    destruct (decide (vec = vector)) as [->|Hne].
    + rewrite DeletePartialMatch_lookup.
      rewrite (bool_decide_eq_true_2 (vector ∈ vector :: vectors))
        by (left).
      destruct (matches labels k); [|rewrite andb_false_r]; cbn;
        [destruct (bool_decide _)|]; reflexivity.
    + destruct (bool_decide (vec ∈ vectors)) eqn:E.
      * apply bool_decide_eq_true in E.
        rewrite (bool_decide_eq_true_2 (vec ∈ vector :: vectors))
          by (right; exact E). reflexivity.
      * apply bool_decide_eq_false in E.
        rewrite (bool_decide_eq_false_2 (vec ∈ vector :: vectors));
          [reflexivity|].
        intros Hin. apply elem_of_cons in Hin as [?|?]; contradiction.
Qed.

Lemma containerStopped_registered (rev : Revision) (containerId : string)
    (th : nat) (m : TContainerMonitor) (w : World) :
  rev = rev1 \/ rev = rev2 ->
  (12 <= String.length containerId)%nat ->
  statsThreads w !! containerId = Some th ->
  heap w !! th = Some m ->
  exists w1,
    heap w1 = <[th := stopped m]> (heap w) /\
    statsThreads w1 = delete containerId (statsThreads w) /\
    gauges w1 = gauges w /\
    containerStopped rev containerId w =
      deleteLabeledMetric
        (<["id" := String.substring 0 12 containerId]>
           (<["name" := removeFirstSlash (Name m)]> ∅))
        containerVectors w1.
Proof.
  intros Hrev Hlong Hreg Hm.
  assert (Hname : forall m0, GetOpt rev "name" m0 =
            (Some {| Opt.Name := "name"; Opt.Value := Opt.VString (Name m0) |},
             m0, [])).
  { intros m0. destruct Hrev as [-> | ->]; reflexivity. }
  unfold containerStopped, ThreadList.Get, ThreadList.Del.
  rewrite Prog_bind_unfold, slice_long by exact Hlong.
  rewrite Prog_bind_unfold. unfold println at 1, modifyW at 1.
  rewrite Prog_bind_unfold. cbn [getW statsThreads set_output].
  rewrite Hreg.
  rewrite Prog_bind_unfold. unfold call at 1.
  rewrite Prog_bind_unfold. cbn [getW heap set_output]. rewrite Hm, Stop_spec.
  rewrite Prog_bind_unfold. unfold modifyW at 1.
  unfold mret at 1, Prog_ret at 1.
  set (w1 := set_output _ _).
  assert (exists w2, (match cli m ≫= closeErr with
                      | Some er =>
                          println "Error stopping container monitor:" (Some er)
                      | None => mret ()
                      end) w1 = Done (tt, w2) /\
                     heap w2 = <[th := stopped m]> (heap w) /\
                     statsThreads w2 = statsThreads w /\
                     gauges w2 = gauges w)
    as (w2 & Hw2 & Hheap2 & Hreg2 & Hg2).
  { destruct (cli m ≫= closeErr); eexists; (split; [reflexivity|]);
      repeat split. }
  rewrite Prog_bind_unfold, Hw2.
  rewrite Prog_bind_unfold. unfold modifyW at 1.
  rewrite Prog_bind_unfold. unfold call at 1.
  rewrite Prog_bind_unfold. cbn [getW heap set_statsThreads].
  rewrite Hheap2, lookup_insert_eq, Hname.
  rewrite Prog_bind_unfold. unfold modifyW at 1.
  unfold mret at 1, Prog_ret at 1.
  rewrite Prog_bind_unfold, slice_long by exact Hlong.
  destruct (stopped_fields m) as (_ & _ & Hn & _). rewrite Hn.
  eexists. split; [|split; [|split; [|reflexivity]]].
  - cbn [heap set_output set_heap set_statsThreads].
    rewrite Hheap2, insert_insert_eq. reflexivity.
  - cbn [statsThreads set_output set_heap set_statsThreads].
    rewrite Hreg2. reflexivity.
  - cbn [gauges set_output set_heap set_statsThreads]. exact Hg2.
Qed.

Lemma containerStopped_unregistered (rev : Revision) (containerId : string)
    (w : World) :
  (12 <= String.length containerId)%nat ->
  statsThreads w !! containerId = None ->
  containerStopped rev containerId w =
    Done (tt, set_output
                (output w ++
                 [MainLog "Stop container monitoring:" None;
                  MainLog "Container with ID is not monitored:" None]) w).
Proof.
  intros Hlong Hreg. unfold containerStopped, ThreadList.Get.
  rewrite Prog_bind_unfold, slice_long by exact Hlong.
  rewrite Prog_bind_unfold. unfold println at 1, modifyW at 1.
  rewrite Prog_bind_unfold. cbn [getW statsThreads set_output].
  rewrite Hreg. unfold println, modifyW. cbn [output set_output].
  rewrite <- app_assoc. reflexivity.
Qed.

(** X8. [containerStopped] for a registered id of at least 12 characters
    completes: it stops the monitor, takes the id out of the registry and
    deletes, from the five container vectors, exactly the series whose id
    label is the first 12 characters of the id and whose name label is the
    monitor's name without its first slash.  For an id that is not
    registered it only writes two log lines: no series is deleted. *)
Theorem containerStopped_cleans_own_series (rev : Revision)
    (containerId : string) (w : World) :
  rev = rev1 \/ rev = rev2 ->
  (12 <= String.length containerId)%nat ->
  (forall th m,
      statsThreads w !! containerId = Some th ->
      heap w !! th = Some m ->
      exists w',
        containerStopped rev containerId w = Done (tt, w') /\
        statsThreads w' = delete containerId (statsThreads w) /\
        heap w' = <[th := stopped m]> (heap w) /\
        forall vec k,
          gauges w' vec !! k =
            if bool_decide
                 (vec <> containersCount /\
                  k !! "id" = Some (String.substring 0 12 containerId) /\
                  k !! "name" = Some (removeFirstSlash (Name m)))
            then None
            else gauges w vec !! k) /\
  (statsThreads w !! containerId = None ->
   containerStopped rev containerId w =
     Done (tt, set_output
                 (output w ++
                  [MainLog "Stop container monitoring:" None;
                   MainLog "Container with ID is not monitored:" None]) w)).
Proof.
  intros Hrev Hlong. split.
  - intros th m Hreg Hm.
    destruct (containerStopped_registered rev containerId th m w
                Hrev Hlong Hreg Hm) as (w1 & Hh1 & Hr1 & Hg1 & Heq).
    destruct (deleteLabeledMetric_total
                (<["id" := String.substring 0 12 containerId]>
                   (<["name" := removeFirstSlash (Name m)]> ∅))
                containerVectors w1) as (w' & Hdel).
    exists w'. split; [rewrite Heq; exact Hdel|].
    destruct (deleteLabeledMetric_effect _ _ _ _ Hdel) as (Hh & Hr & Hg).
    split; [congruence|]. split; [congruence|].
    intros vec k. rewrite Hg, Hg1.
    destruct (matches _ k) eqn:Hmatch.
    + apply matches_id_name in Hmatch as [Hid Hname]. rewrite andb_true_r.
      destruct vec.
      * rewrite !bool_decide_eq_false_2; [reflexivity| |].
        -- intros [Hne _]. apply Hne. reflexivity.
        -- unfold containerVectors. intros Hin.
           repeat (apply elem_of_cons in Hin as [Hin|Hin]; [discriminate|]).
           apply elem_of_nil in Hin. exact Hin.
      * rewrite !bool_decide_eq_true_2; [reflexivity| |];
          [repeat split; [discriminate|assumption..]
          |unfold containerVectors; repeat constructor].
      * rewrite !bool_decide_eq_true_2; [reflexivity| |];
          [repeat split; [discriminate|assumption..]
          |unfold containerVectors; repeat constructor].
      * rewrite !bool_decide_eq_true_2; [reflexivity| |];
          [repeat split; [discriminate|assumption..]
          |unfold containerVectors; repeat constructor].
      * rewrite !bool_decide_eq_true_2; [reflexivity| |];
          [repeat split; [discriminate|assumption..]
          |unfold containerVectors; repeat constructor].
      * rewrite !bool_decide_eq_true_2; [reflexivity| |];
          [repeat split; [discriminate|assumption..]
          |unfold containerVectors; repeat constructor].
    + rewrite andb_false_r. rewrite bool_decide_eq_false_2; [reflexivity|].
      intros (_ & Hid & Hname).
      assert (matches (<["id" := String.substring 0 12 containerId]>
                         (<["name" := removeFirstSlash (Name m)]> ∅)) k
              = true) by (apply matches_id_name; auto).
      congruence.
  - intros Hreg. apply containerStopped_unregistered; assumption.
Qed.

Lemma containerStopped_cleans_own_series_witness :
  (exists w',
     containerStopped rev2 idB worldAB = Done (tt, w') /\
     statsThreads w' = delete idB (statsThreads worldAB) /\
     heap w' !! 1%nat = Some (stopped (startedMonitor idB))) /\
  containerStopped rev1 idB emptyWorld =
    Done (tt, set_output
                [MainLog "Stop container monitoring:" None;
                 MainLog "Container with ID is not monitored:" None]
                emptyWorld).
Proof.
  split.
  - destruct (containerStopped_cleans_own_series rev2 idB worldAB)
      as [H _]; [right; reflexivity|cbn; lia|].
    destruct (H 1%nat (startedMonitor idB) eq_refl eq_refl)
      as (w' & H1 & H2 & H3 & _).
    exists w'. split; [exact H1|]. split; [exact H2|].
    rewrite H3. apply lookup_insert_eq.
  - destruct (containerStopped_cleans_own_series rev1 idB emptyWorld)
      as [_ H]; [left; reflexivity|cbn; lia|].
    apply H. reflexivity.
Defined.

(** ** The reconciliation cycle *)

Lemma Exec_started (env : StartEnv) (m m' : TContainerMonitor)
    (evs : list Event) :
  Exec env m = (None, m', evs) ->
  evs = [GoReadStream] /\ Id m' = Id m /\ Name m' = Name m /\
  stop m' = false /\
  OnStatRead m' = OnStatRead m /\ OnRemove m' = OnRemove m.
Proof.
  unfold Exec, init. task_unfold.
  destruct (String.eqb (Id m) ""); [cbn; congruence|].
  destruct (newClient env); [|cbn; congruence].
  destruct (inspect0 env); cbn; [|congruence].
  intros [= <- <-]. repeat split.
Qed.

Lemma Exec_Id (env : StartEnv) (m : TContainerMonitor) :
  Id (snd (fst (Exec env m))) = Id m.
Proof.
  unfold Exec, init. task_unfold.
  destruct (String.eqb (Id m) ""); [reflexivity|].
  destruct (newClient env); [|reflexivity].
  destruct (inspect0 env); reflexivity.
Qed.

Lemma spawned_app (out1 out2 : list Output) :
  spawned (out1 ++ out2) = (spawned out1 + spawned out2)%nat.
Proof. unfold spawned. rewrite filter_app, length_app. reflexivity. Qed.

Lemma spawned_log (out : list Output) (text : string) (er : option error) :
  spawned (out ++ [MainLog text er]) = spawned out.
Proof.
  rewrite spawned_app.
  change (spawned [MainLog text er]) with 0%nat. lia.
Qed.

(** What one pass of the first loop does to the registry and the store. *)
Lemma startMonitor_step (cont : Container) (w w1 : World) :
  startMonitor cont w = Done (tt, w1) ->
  (statsThreads w1 = statsThreads w /\
   spawned (output w1) = spawned (output w) /\
   (is_Some (statsThreads w !! ID cont) \/ starts cont = false)) \/
  (statsThreads w !! ID cont = None /\ starts cont = true /\
   spawned (output w1) = S (spawned (output w)) /\
   exists m',
     Exec (daemon cont) (newMonitor (ID cont)) = (None, m', [GoReadStream]) /\
     statsThreads w1 = <[ID cont := fresh (dom (heap w))]> (statsThreads w) /\
     heap w1 !! fresh (dom (heap w)) = Some m').
Proof.
  unfold startMonitor, ThreadList.Put, ThreadList.Exists, slice, starts.
  prog_unfold.
  generalize (Nat.leb 12 (String.length (ID cont))). intros long.
  cbn -[spawned].
  case_bool_decide as Hex.
  { intros [= <-]. left. auto. }
  rewrite lookup_insert_eq.
  change {| Id := ID cont; Name := ""; Labels := ∅; cli := None;
            stop := false;
            OnStatRead := Some clb_containerStatisticRead;
            OnRemove := Some clb_containerStopped |}
    with (newMonitor (ID cont)).
  destruct (Exec (daemon cont) (newMonitor (ID cont))) as [[e m'] evs] eqn:HE.
  cbn -[spawned].
  destruct e as [e|]; cbn -[spawned].
  { intros [= <-]. left. cbn -[spawned]. rewrite spawned_log.
    apply Exec_failed_no_task in HE as ->. cbn -[spawned]. rewrite app_nil_r. auto. }
  rewrite bool_decide_eq_false_2 by exact Hex. cbn -[spawned].
  destruct long; cbn; [|discriminate].
  intros [= <-]. right.
  destruct (Exec_started _ _ _ _ HE) as (-> & _).
  split; [apply eq_None_not_Some, Hex|]. split; [reflexivity|].
  split.
  { cbn -[spawned]. rewrite spawned_log, spawned_app.
    change (spawned [At (fresh (dom (heap w))) GoReadStream])
      with 1%nat. lia. }
  exists m'. split; [reflexivity|]. split; [reflexivity|].
  cbn -[spawned]. apply lookup_insert_eq.
Qed.

Lemma start_phase_counts (l : list Container) :
  forall w w1,
  forEach l startMonitor w = Done (tt, w1) ->
  dom (statsThreads w1)
  = dom (statsThreads w)
    ∪ list_to_set (map ID (filter (fun cont => starts cont = true) l)) /\
  (spawned (output w1) + size (statsThreads w)
   = spawned (output w) + size (statsThreads w1))%nat.
Proof.
  induction l as [|cont l IH]; intros w w1 H.
  - injection H as <-. cbn. rewrite union_empty_r_L. auto.
  - cbn [forEach] in H. apply Prog_bind_Done in H as ([] & w0 & H0 & H).
    destruct (IH _ _ H) as [Hdom Hcount]. clear IH H.
    destruct (startMonitor_step _ _ _ H0)
      as [(Hreg & Hsp & Hcase)|(Hnone & Hst & Hsp & m' & _ & Hreg & _)].
    + rewrite Hreg in *. split; [|lia].
      rewrite Hdom. destruct (starts cont) eqn:Hs.
      * destruct Hcase as [Hin|?]; [|discriminate].
        apply elem_of_dom, singleton_subseteq_l in Hin.
        rewrite filter_cons_True by exact Hs. cbn [map list_to_set].
        rewrite (assoc_L (∪)),
          (comm_L (∪) (dom (statsThreads w)) {[ID cont]}),
          (subseteq_union_1_L _ _ Hin).
        reflexivity.
      * rewrite filter_cons_False by (rewrite Hs; discriminate). reflexivity.
    + rewrite Hreg in *. split.
      * rewrite Hdom, dom_insert_L.
        rewrite filter_cons_True by exact Hst. cbn [map list_to_set].
        rewrite (assoc_L (∪)),
          (comm_L (∪) (dom (statsThreads w)) {[ID cont]}).
        reflexivity.
      * rewrite map_size_insert_None in Hcount by exact Hnone. lia.
Qed.

Lemma consistent_wf (w : World) : consistent w -> wf w.
Proof. intros H id th Hid. destruct (H id th Hid) as (m & Hm & _). eauto. Qed.

Lemma startMonitor_consistent (cont : Container) (w w1 : World) :
  startMonitor cont w = Done (tt, w1) -> consistent w -> consistent w1.
Proof.
  intros H Hc.
  destruct (startMonitor_keeps _ _ _ H) as [_ Hheap].
  destruct (startMonitor_step _ _ _ H)
    as [(Hreg & _)|(_ & _ & _ & m' & HE & Hreg & Hm')];
    intros id th; rewrite Hreg.
  - intros Hid. destruct (Hc _ _ Hid) as (m & Hm & Hi). eauto.
  - intros Hid. apply lookup_insert_Some in Hid as [[<- <-]|[_ Hid]].
    + exists m'. split; [exact Hm'|].
      apply Exec_started in HE as (_ & -> & _). reflexivity.
    + destruct (Hc _ _ Hid) as (m & Hm & Hi). eauto.
Qed.

Lemma start_phase_consistent (l : list Container) :
  forall w w1,
  forEach l startMonitor w = Done (tt, w1) ->
  consistent w ->
  consistent w1 /\ keeps w w1 /\
  forall id th,
    statsThreads w1 !! id = Some th -> statsThreads w !! id = None ->
    heap w !! th = None /\
    exists cont m',
      cont ∈ l /\ ID cont = id /\
      Exec (daemon cont) (newMonitor id) = (None, m', [GoReadStream]) /\
      heap w1 !! th = Some m'.
Proof.
  induction l as [|cont l IH]; intros w w1 H Hc.
  - injection H as <-. split; [exact Hc|]. split; [apply keeps_refl|].
    intros id th H1 H2. congruence.
  - cbn [forEach] in H. apply Prog_bind_Done in H as ([] & w0 & H0 & H).
    pose proof (startMonitor_consistent _ _ _ H0 Hc) as Hc0.
    pose proof (startMonitor_keeps _ _ _ H0) as Hk0.
    destruct (IH _ _ H Hc0) as (Hc1 & Hk1 & Hnew). clear IH.
    split; [exact Hc1|]. split; [apply (keeps_trans _ _ _ Hk0 Hk1)|].
    intros id th Hid1 Hid.
    destruct (statsThreads w0 !! id) as [th0|] eqn:Hid0.
    + destruct Hk1 as [Hkr Hkh].
      pose proof (Hkr _ _ Hid0) as Hid1'. rewrite Hid1 in Hid1'.
      injection Hid1' as <-.
      destruct (startMonitor_step _ _ _ H0)
        as [(Hreg & _)|(_ & _ & _ & m' & HE & Hreg & Hm')];
        rewrite Hreg in Hid0; [congruence|].
      apply lookup_insert_Some in Hid0 as [[<- <-]|[_ Hid0]]; [|congruence].
      split; [apply fresh_heap|].
      exists cont, m'. split; [left|]. split; [reflexivity|].
      split; [exact HE|apply Hkh, Hm'].
    + destruct (Hnew _ _ Hid1 Hid0) as (Hfresh & cont' & m' & Hin & Hrest).
      split.
      * destruct (heap w !! th) as [m|] eqn:Hm; [|reflexivity].
        destruct Hk0 as [_ Hkh]. rewrite (Hkh _ _ Hm) in Hfresh.
        discriminate.
      * exists cont', m'. split; [right; exact Hin|exact Hrest].
Qed.

Lemma listed_existsb (containerList : list Container) (key : string) :
  key ∈ map ID containerList ->
  existsb (fun cont => String.eqb (ID cont) key) containerList = true.
Proof.
  induction containerList as [|cont l IH]; cbn [map existsb]; intros Hin.
  - apply elem_of_nil in Hin. contradiction.
  - apply elem_of_cons in Hin as [->|Hin].
    + rewrite String.eqb_refl. reflexivity.
    + rewrite (IH Hin). apply orb_true_r.
Qed.

(** What one pass of the second loop changes: nothing, or the monitor of
    an unlisted key. *)
Lemma stopRemoved_exact (containerList : list Container) (key : string)
    (w w' : World) :
  stopRemoved containerList key w = Done (tt, w') ->
  statsThreads w' = statsThreads w /\
  spawned (output w') = spawned (output w) /\
  forall l,
    heap w' !! l = heap w !! l \/
    (existsb (fun cont => String.eqb (ID cont) key) containerList = false /\
     statsThreads w !! key = Some l).
Proof.
  unfold stopRemoved, ThreadList.Get. prog_unfold.
  destruct (existsb _ containerList); cbn -[spawned].
  { intros [= <-]. auto. }
  destruct (statsThreads w !! key) as [th|] eqn:Hkey; cbn -[spawned].
  2:{ intros [= <-]. auto. }
  destruct (heap w !! th) as [m|] eqn:Hth; cbn -[spawned]; [|discriminate].
  rewrite Stop_spec. cbn -[spawned].
  destruct (cli m ≫= closeErr); cbn -[spawned]; intros [= <-];
    cbn -[spawned]; rewrite ?spawned_log, app_nil_r;
    (split; [reflexivity|]); (split; [reflexivity|]);
    intros l; (destruct (decide (l = th)) as [->|Hne];
      [right; auto|left; apply lookup_insert_ne; congruence]).
Qed.

Lemma stops_consistent (w w' : World) :
  stops w w' -> consistent w -> consistent w'.
Proof.
  intros [Hreg Hheap] Hc id th Hid. rewrite Hreg in Hid.
  destruct (Hc _ _ Hid) as (m & Hm & Hi).
  destruct (Hheap _ _ Hm) as [H|H]; eexists; (split; [exact H|]);
    [exact Hi|].
  destruct (stopped_fields m) as (_ & -> & _). exact Hi.
Qed.

Lemma stop_phase (containerList : list Container) (keys : list string) :
  forall w w',
  forEach keys (stopRemoved containerList) w = Done (tt, w') ->
  consistent w ->
  consistent w' /\
  forall id th m,
    statsThreads w !! id = Some th -> heap w !! th = Some m ->
    id ∈ map ID containerList -> heap w' !! th = Some m.
Proof.
  induction keys as [|key keys IH]; intros w w' H Hc.
  - injection H as <-. auto.
  - cbn [forEach] in H. apply Prog_bind_Done in H as ([] & w0 & H0 & H).
    destruct (stopRemoved_stops _ _ _ _ H0) as [Hst _].
    pose proof (stops_consistent _ _ Hst Hc) as Hc0.
    destruct (IH _ _ H Hc0) as [Hc' Hkeep]. clear IH.
    split; [exact Hc'|].
    intros id th m Hid Hm Hin.
    destruct (stopRemoved_exact _ _ _ _ H0) as (Hreg & _ & Hheap).
    apply (Hkeep id); [congruence| |exact Hin].
    destruct (Hheap th) as [->|[Habs Hkey]]; [exact Hm|].
    destruct (Hc _ _ Hkey) as (m1 & Hm1 & Hi1).
    destruct (Hc _ _ Hid) as (m2 & Hm2 & Hi2).
    assert (Heq : key = id) by congruence. rewrite Heq in Habs.
    rewrite (listed_existsb _ _ Hin) in Habs. discriminate.
Qed.

Lemma stop_phase_counts (containerList : list Container)
    (keys : list string) :
  forall w w',
  forEach keys (stopRemoved containerList) w = Done (tt, w') ->
  statsThreads w' = statsThreads w /\
  spawned (output w') = spawned (output w).
Proof.
  apply (forEach_preserves
           (fun w w' => statsThreads w' = statsThreads w /\
                        spawned (output w') = spawned (output w))).
  - auto.
  - intros w1 w2 w3 [? ?] [? ?]. split; congruence.
  - intros key w w' H. destruct (stopRemoved_exact _ _ _ _ H) as (? & ? & _).
    auto.
Qed.

Lemma cycle_split (containerList : list Container) (w w' : World) :
  cycle (ok containerList) w = Done (tt, w') ->
  exists w0 w1,
    heap w0 = heap w /\ statsThreads w0 = statsThreads w /\
    output w0 = output w /\
    forEach containerList startMonitor w0 = Done (tt, w1) /\
    forEach (ThreadList.GetKeys (statsThreads w1))
            (stopRemoved containerList) w1 = Done (tt, w').
Proof.
  unfold cycle. intros H.
  apply Prog_bind_Done in H as ([] & w0 & H0 & H).
  apply Prog_bind_Done in H as ([] & w1 & H1 & H).
  apply Prog_bind_Done in H as (wx & w2 & H2 & H).
  injection H2 as <- <-.
  exists w0, w1. unfold Gauge_Set, modifyW in H0. injection H0 as <-.
  repeat split; assumption.
Qed.

(** X9. After a completed cycle the registered ids are those registered
    before together with the ids of the listed containers whose [Exec]
    succeeded: a failed start leaves the container unregistered, and nothing
    is taken out. *)
Theorem cycle_registry_domain (containerList : list Container)
    (w w' : World) :
  cycle (ok containerList) w = Done (tt, w') ->
  dom (statsThreads w')
  = dom (statsThreads w)
    ∪ list_to_set
        (map ID (filter (fun cont => starts cont = true) containerList)).
Proof.
  intros H. destruct (cycle_split _ _ _ H) as (w0 & w1 & _ & Hr0 & _ & H1 & H2).
  destruct (start_phase_counts _ _ _ H1) as [Hdom _].
  destruct (stop_phase_counts _ _ _ _ H2) as [Hreg _].
  rewrite Hreg, Hdom, Hr0. reflexivity.
Qed.

(** X10. A completed cycle starts exactly one read loop for each id it
    adds to the registry, and none otherwise. *)
Theorem cycle_spawns_per_registration (containerList : list Container)
    (w w' : World) :
  cycle (ok containerList) w = Done (tt, w') ->
  (spawned (output w') + size (statsThreads w)
   = spawned (output w) + size (statsThreads w'))%nat.
Proof.
  intros H.
  destruct (cycle_split _ _ _ H) as (w0 & w1 & _ & Hr0 & Ho0 & H1 & H2).
  destruct (start_phase_counts _ _ _ H1) as [_ Hcount].
  destruct (stop_phase_counts _ _ _ _ H2) as [Hreg Hsp].
  rewrite Hreg, Hsp. rewrite Hr0, Ho0 in Hcount. exact Hcount.
Qed.

(** X11. A cycle over a consistent state, once completed, leaves a
    consistent state.  A listed container that was registered keeps its
    handle and its monitor untouched: it is neither restarted nor stopped.
    An id registered by the cycle belongs to a listed container whose
    [Exec] succeeded, and its handle is a new monitor object in the state
    [Exec] left it in. *)
Theorem cycle_converges (containerList : list Container) (w w' : World) :
  consistent w ->
  cycle (ok containerList) w = Done (tt, w') ->
  consistent w' /\
  (forall id th m,
      statsThreads w !! id = Some th -> heap w !! th = Some m ->
      id ∈ map ID containerList ->
      statsThreads w' !! id = Some th /\ heap w' !! th = Some m) /\
  (forall id th,
      statsThreads w' !! id = Some th -> statsThreads w !! id = None ->
      heap w !! th = None /\
      exists cont m',
        cont ∈ containerList /\ ID cont = id /\
        Exec (daemon cont) (newMonitor id) = (None, m', [GoReadStream]) /\
        heap w' !! th = Some m').
Proof.
  intros Hc H.
  destruct (cycle_split _ _ _ H) as (w0 & w1 & Hh0 & Hr0 & _ & H1 & H2).
  assert (Hc0 : consistent w0).
  { intros id th. rewrite Hr0, Hh0. apply Hc. }
  destruct (start_phase_consistent _ _ _ H1 Hc0) as (Hc1 & [Hkr Hkh] & Hnew).
  destruct (stop_phase _ _ _ _ H2 Hc1) as [Hc' Hkeep].
  destruct (stop_phase_counts _ _ _ _ H2) as [Hreg _].
  split; [exact Hc'|]. split.
  - intros id th m Hid Hm Hin. rewrite <- Hr0 in Hid. rewrite <- Hh0 in Hm.
    split; [rewrite Hreg; auto|].
    apply (Hkeep id); auto.
  - intros id th Hid' Hid. rewrite Hreg in Hid'. rewrite <- Hr0 in Hid.
    destruct (Hnew _ _ Hid' Hid)
      as (Hfresh & cont & m' & Hin & Hidc & HE & Hm').
    split; [rewrite <- Hh0; exact Hfresh|].
    exists cont, m'. repeat split; try assumption.
    apply (Hkeep id); [exact Hid'|exact Hm'|].
    subst id. apply list_elem_of_fmap_2. exact Hin.
Qed.

Lemma worldA_cycle :
  cycle (ok [containerA; containerB; containerC]) worldA
  = Done (tt, worldA_after).
Proof. vm_compute. reflexivity. Qed.

Lemma consistent_worldA : consistent worldA.
Proof.
  intros id th. unfold worldA. cbn [statsThreads heap]. intros H.
  apply lookup_insert_Some in H as [[<- <-]|[_ H]];
    [|rewrite lookup_empty in H; discriminate].
  rewrite lookup_insert_eq. eauto.
Qed.

Lemma cycle_registry_domain_witness :
  dom (statsThreads worldA_after)
  = dom (statsThreads worldA)
    ∪ list_to_set
        (map ID (filter (fun cont => starts cont = true)
                        [containerA; containerB; containerC])) /\
  statsThreads worldA_after !! idB = Some 1%nat /\
  statsThreads worldA_after !! idC = None.
Proof.
  split; [apply (cycle_registry_domain _ _ _ worldA_cycle)|].
  split; reflexivity.
Defined.

Lemma cycle_spawns_per_registration_witness :
  (spawned (output worldA_after) + size (statsThreads worldA)
   = spawned (output worldA) + size (statsThreads worldA_after))%nat /\
  spawned (output worldA_after) = 1%nat.
Proof.
  split; [apply (cycle_spawns_per_registration _ _ _ worldA_cycle)|].
  reflexivity.
Defined.

Lemma cycle_converges_witness :
  consistent worldA_after /\
  (statsThreads worldA_after !! idA = Some 0%nat /\
   heap worldA_after !! 0%nat = Some (startedMonitor idA)) /\
  (heap worldA !! 1%nat = None /\
   exists cont m',
     cont ∈ [containerA; containerB; containerC] /\ ID cont = idB /\
     Exec (daemon cont) (newMonitor idB) = (None, m', [GoReadStream]) /\
     heap worldA_after !! 1%nat = Some m').
Proof.
  destruct (cycle_converges _ _ _ consistent_worldA worldA_cycle)
    as (Hc & Hold & Hnew).
  split; [exact Hc|]. split.
  - apply (Hold idA 0%nat (startedMonitor idA)); [reflexivity..|].
    cbn [map]. left.
  - apply (Hnew idB 1%nat); reflexivity.
Defined.

(** ** A monitor's loop as a task of the program *)

Lemma statLabels_frame (normalizeLabel : string -> string)
    (stat : TContainerStatistic) (names : list string) :
  forall labels w labels' w',
  statLabels normalizeLabel names stat labels w = Done (labels', w') ->
  w' = w.
Proof.
  induction names as [|labelName names IH]; intros labels w labels' w' H.
  - injection H as _ <-. reflexivity.
  - cbn [statLabels] in H.
    destruct (String.eqb labelName "id").
    + apply Prog_bind_Done in H as (id12 & w1 & H1 & H).
      apply slice_Done in H1 as (_ & _ & ->). apply (IH _ _ _ _ H).
    + destruct (String.eqb labelName "name"); apply (IH _ _ _ _ H).
Qed.

Lemma containerStatisticRead_frame (normalizeLabel : string -> string)
    (labelFields : list string) (stat : TContainerStatistic) (w w' : World) :
  containerStatisticRead normalizeLabel labelFields stat w = Done (tt, w') ->
  heap w' = heap w /\ statsThreads w' = statsThreads w /\
  output w' = output w.
Proof.
  unfold containerStatisticRead. intros H.
  apply Prog_bind_Done in H as (labels & w1 & H1 & H).
  apply statLabels_frame in H1 as ->.
  rewrite !Prog_bind_unfold, !Gauge_Set_unfold in H.
  injection H as <-. repeat split.
Qed.

Lemma call_registry {A : Type} (th : nat) (method : Task A) (w w' : World)
    (a : A) :
  call th method w = Done (a, w') -> statsThreads w' = statsThreads w.
Proof.
  unfold call. prog_unfold. cbn.
  destruct (heap w !! th); [|discriminate].
  destruct (method _) as [[a' m'] evs]. intros [= _ <-]. reflexivity.
Qed.

Lemma containerStopped_registry (rev : Revision) (containerId : string)
    (w w' : World) :
  containerStopped rev containerId w = Done (tt, w') ->
  statsThreads w' = delete containerId (statsThreads w).
Proof.
  unfold containerStopped, ThreadList.Get, ThreadList.Del. intros H.
  apply Prog_bind_Done in H as (s & w0 & Hs & H).
  apply slice_Done in Hs as (_ & _ & ->).
  apply Prog_bind_Done in H as ([] & w1 & H1 & H).
  unfold println, modifyW in H1. injection H1 as <-.
  apply Prog_bind_Done in H as (wx & w2 & H2 & H).
  injection H2 as <- <-. cbn [statsThreads set_output] in H.
  destruct (statsThreads w !! containerId) as [thread|] eqn:Hreg.
  2:{ unfold println, modifyW in H. injection H as <-.
      cbn [statsThreads set_output]. symmetry. apply delete_id, Hreg. }
  apply Prog_bind_Done in H as (er & w3 & H3 & H).
  apply Prog_bind_Done in H as ([] & w4 & H4 & H).
  apply Prog_bind_Done in H as ([] & w5 & H5 & H).
  apply Prog_bind_Done in H as (name & w6 & H6 & H).
  assert (H45 : statsThreads w4 = statsThreads w3).
  { destruct er; unfold println, modifyW, mret, Prog_ret in H4;
      injection H4 as <-; reflexivity. }
  unfold modifyW in H5. injection H5 as <-.
  apply call_registry in H3, H6. cbn [statsThreads set_statsThreads] in H6.
  cbn [statsThreads set_output] in H3.
  destruct name as [[optName [nameValue| | |]]|]; try discriminate H.
  apply Prog_bind_Done in H as (id12 & w7 & H7 & H).
  apply slice_Done in H7 as (_ & _ & ->).
  apply deleteLabeledMetric_registry in H. congruence.
Qed.

Lemma handle_registry (normalizeLabel : string -> string)
    (labelFields : list string) (rev : Revision) (e : Event) (w w' : World) :
  handle normalizeLabel labelFields rev e w = Done (tt, w') ->
  statsThreads w' =
    match e with
    | CallOnRemove _ id => delete id (statsThreads w)
    | _ => statsThreads w
    end.
Proof.
  destruct e as [text er|[] stat|[] id|]; cbn [handle]; intros H.
  - injection H as <-. reflexivity.
  - apply containerStatisticRead_frame in H as (_ & H & _). exact H.
  - apply containerStopped_registry in H. exact H.
  - injection H as <-. reflexivity.
Qed.

Lemma handle_no_removal (normalizeLabel : string -> string)
    (labelFields : list string) (rev : Revision) (evs : list Event) :
  forall w w',
  removals evs = 0%nat ->
  forEach evs (handle normalizeLabel labelFields rev) w = Done (tt, w') ->
  statsThreads w' = statsThreads w.
Proof.
  induction evs as [|e evs IH]; intros w w' Hn H.
  - injection H as <-. reflexivity.
  - cbn [forEach] in H. apply Prog_bind_Done in H as ([] & w1 & H1 & H).
    change (e :: evs) with ([e] ++ evs) in Hn. rewrite removals_app in Hn.
    rewrite (IH _ _ ltac:(lia) H).
    apply handle_registry in H1. rewrite H1.
    destruct e; try reflexivity.
    change (removals [CallOnRemove f id]) with 1%nat in Hn. lia.
Qed.

Lemma handle_one_removal (normalizeLabel : string -> string)
    (labelFields : list string) (rev : Revision) (evs : list Event)
    (f : TClbOnRemove) (id : string) (w w' : World) :
  removals evs = 0%nat ->
  forEach (evs ++ [CallOnRemove f id])
          (handle normalizeLabel labelFields rev) w = Done (tt, w') ->
  statsThreads w' = delete id (statsThreads w).
Proof.
  intros Hn H. apply forEach_app in H as (w1 & H1 & H2).
  apply handle_no_removal in H1; [|exact Hn].
  cbn [forEach] in H2. apply Prog_bind_Done in H2 as ([] & w2 & H2 & H3).
  injection H3 as <-. apply handle_registry in H2. congruence.
Qed.

Lemma runReadStream_unfold (normalizeLabel : string -> string)
    (labelFields : list string) (rev : Revision) (th : nat)
    (s : StatsSession) (m m' : TContainerMonitor) (evs : list Event)
    (returned r : bool) (w w' : World) :
  heap w !! th = Some m ->
  readStream rev s m = (returned, m', evs) ->
  runReadStream normalizeLabel labelFields rev th s w = Done (r, w') ->
  r = returned /\
  exists w1, statsThreads w1 = statsThreads w /\
    forEach evs (handle normalizeLabel labelFields rev) w1 = Done (tt, w').
Proof.
  intros Hm Hrs. unfold runReadStream.
  rewrite Prog_bind_unfold. cbn [getW]. rewrite Hm, Hrs. intros H.
  apply Prog_bind_Done in H as ([] & w1 & H1 & H).
  apply Prog_bind_Done in H as ([] & w2 & H2 & H).
  injection H as <- <-. split; [reflexivity|].
  unfold modifyW in H1. injection H1 as <-.
  eexists. split; [|exact H2]. reflexivity.
Qed.

Lemma removals_snapshots (m : TContainerMonitor) (ts : list Tick) :
  removals (flat_map (snapshot m) ts) = 0%nat.
Proof.
  induction ts as [|t ts IH]; [reflexivity|].
  cbn [flat_map]. rewrite removals_app, IH. unfold snapshot.
  destruct (decoded t); [|reflexivity].
  destruct (inspected t); [|reflexivity].
  destruct (OnStatRead m); reflexivity.
Qed.

Lemma removals_endLog (t : Tick) :
  removals (endLog1 t) = 0%nat /\ removals (endLog2 t) = 0%nat.
Proof.
  unfold endLog1, endLog2. destruct (stopRequested t); [split; reflexivity|].
  destruct (decoded t) as [|[]]; destruct (inspected t); split; reflexivity.
Qed.

(** X12. The first revision's loop as a task of the program, for a monitor
    that is running and wired to [containerStopped]: if the task completes,
    the registry has lost exactly the monitor's id when the loop returned
    after its stream had opened, and is as it was when the loop is still
    running or the stream could not be opened. *)
Theorem runReadStream_rev1_registry (normalizeLabel : string -> string)
    (labelFields : list string) (th : nat) (s : StatsSession)
    (m : TContainerMonitor) (w w' : World) (r : bool) :
  heap w !! th = Some m ->
  stop m = false ->
  OnRemove m = Some clb_containerStopped ->
  runReadStream normalizeLabel labelFields rev1 th s w = Done (r, w') ->
  match opened s with
  | Some _ => r = true /\ statsThreads w' = statsThreads w
  | None =>
      r = existsb ends (ticks s) /\
      statsThreads w' =
        if r then delete (Id m) (statsThreads w) else statsThreads w
  end.
Proof.
  intros Hm Hstop Hrem Hrun. destruct s as [[e|] ts]; cbn [opened ticks].
  - eapply runReadStream_unfold in Hrun as (-> & w1 & Hreg & Hev);
      [|exact Hm|reflexivity].
    split; [reflexivity|].
    apply handle_no_removal in Hev; [congruence|reflexivity].
  - eapply runReadStream_unfold in Hrun as (-> & w1 & Hreg & Hev);
      [|exact Hm|cbn [readStream rev1];
                 apply Rev1_readStream_form, Hstop].
    split; [reflexivity|]. rewrite <- Hreg.
    assert (Hex : existsb ends ts
                  = if List.find ends ts is Some _ then true else false).
    { clear. induction ts as [|t ts IH]; [reflexivity|].
      cbn [existsb List.find]. destruct (ends t); [reflexivity|exact IH]. }
    rewrite Hex. destruct (List.find ends ts) as [t|].
    + unfold removal in Hev. rewrite Hrem in Hev.
      rewrite !app_assoc in Hev.
      apply handle_one_removal in Hev; [exact Hev|].
      rewrite removals_app, removals_snapshots.
      apply (removals_endLog t).
    + apply handle_no_removal in Hev; [exact Hev|].
      rewrite app_nil_r. apply removals_snapshots.
Qed.

(** X13. The second revision's loop as a task of the program: the id
    leaves the registry when the loop is left by a stop request or a failed
    decode; after a failed status query the task is over and the id is still
    registered. *)
Theorem runReadStream_rev2_registry (normalizeLabel : string -> string)
    (labelFields : list string) (th : nat) (ts : list Tick)
    (m : TContainerMonitor) (w w' : World) (r : bool) :
  heap w !! th = Some m ->
  stop m = false ->
  OnRemove m = Some clb_containerStopped ->
  runReadStream normalizeLabel labelFields rev2 th
    {| opened := None; ticks := ts |} w = Done (r, w') ->
  r = existsb ends ts /\
  statsThreads w' =
    match Rev2_exit ts with
    | Rev2.Break => delete (Id m) (statsThreads w)
    | _ => statsThreads w
    end.
Proof.
  intros Hm Hstop Hrem Hrun.
  eapply runReadStream_unfold in Hrun as (-> & w1 & Hreg & Hev);
    [|exact Hm|cbn [readStream rev2];
               apply Rev2_readStream_form, Hstop].
  split; [reflexivity|]. rewrite <- Hreg. unfold Rev2_exit.
  destruct (List.find ends ts) as [t|].
  - unfold removal in Hev. rewrite Hrem in Hev.
    assert (Hlog : removals (flat_map (snapshot m) (published ts)
                             ++ endLog2 t) = 0%nat).
    { rewrite removals_app, removals_snapshots. apply (removals_endLog t). }
    destruct (stopRequested t).
    + rewrite !app_assoc in Hev.
      apply handle_one_removal in Hev; assumption.
    + destruct (decoded t).
      * rewrite app_nil_r in Hev.
        apply handle_no_removal in Hev; assumption.
      * rewrite !app_assoc in Hev.
        apply handle_one_removal in Hev; assumption.
  - apply handle_no_removal in Hev; [exact Hev|].
    rewrite app_nil_r. apply removals_snapshots.
Qed.

(** A task whose trace is log lines followed by the [OnRemove] call of an
    id of at least 12 characters completes on a well-formed state. *)
Lemma runReadStream_completes (normalizeLabel : string -> string)
    (labelFields : list string) (rev : Revision) (th : nat)
    (s : StatsSession) (m m' : TContainerMonitor) (r : bool)
    (logs : list Event) (id : string) (w : World) :
  rev = rev1 \/ rev = rev2 ->
  wf w ->
  heap w !! th = Some m ->
  readStream rev s m = (r, m', logs ++ [CallOnRemove clb_containerStopped id]) ->
  Forall (fun e => exists text er, e = Log text er) logs ->
  (12 <= String.length id)%nat ->
  exists w', runReadStream normalizeLabel labelFields rev th s w = Done (r, w').
Proof.
  intros Hrev Hwf Hm Hrs Hlogs Hlong. unfold runReadStream.
  rewrite Prog_bind_unfold. cbn [getW]. rewrite Hm, Hrs.
  rewrite Prog_bind_unfold. unfold modifyW at 1.
  set (w1 := set_output _ _).
  assert (Hwf1 : wf w1).
  { intros id' th' Hid'. cbn in Hid' |- *.
    rewrite lookup_insert_is_Some.
    destruct (decide (th = th')); [left; assumption|].
    right. split; [assumption|]. apply (Hwf _ _ Hid'). }
  clearbody w1. clear Hrs.
  assert (Hev : exists w',
             forEach (logs ++ [CallOnRemove clb_containerStopped id])
                     (handle normalizeLabel labelFields rev) w1
             = Done (tt, w')).
  { induction Hlogs as [|e logs (text & er & ->) _ IH].
    - cbn [app forEach handle]. rewrite Prog_bind_unfold.
      destruct (containerStopped_total rev id w1 Hrev Hlong Hwf1)
        as (w' & ->).
      eauto.
    - cbn [app forEach handle]. rewrite Prog_bind_unfold. exact IH. }
  destruct Hev as (w' & Hev). rewrite Prog_bind_unfold, Hev. eauto.
Qed.

Lemma runReadStream_rev1_registry_witness :
  exists w',
    runReadStream (fun lbl => lbl) ["app"] rev1 0%nat
      {| opened := None; ticks := [failedInspect; goodTick] |}
      worldAB = Done (true, w') /\
    statsThreads w' = delete idA (statsThreads worldAB).
Proof.
  destruct (runReadStream_completes (fun lbl => lbl) ["app"] rev1 0%nat
              {| opened := None; ticks := [failedInspect; goodTick] |}
              (startedMonitor idA) (startedMonitor idA) true
              [Log "Error inspecting container:"
                   (Some (errors_New "No such container"))]
              idA worldAB) as [w' Hrun].
  - left. reflexivity.
  - exact wf_worldAB.
  - reflexivity.
  - reflexivity.
  - repeat constructor. eauto.
  - cbn. lia.
  - exists w'. split; [exact Hrun|].
    pose proof (runReadStream_rev1_registry (fun lbl => lbl) ["app"] 0%nat
                  {| opened := None; ticks := [failedInspect; goodTick] |}
                  (startedMonitor idA) worldAB w' true
                  eq_refl eq_refl eq_refl Hrun) as [_ H].
    exact H.
Defined.

Lemma runReadStream_rev2_registry_witness :
  exists w',
    runReadStream (fun lbl => lbl) ["app"] rev2 0%nat
      {| opened := None; ticks := [failedInspect; goodTick] |}
      worldAB = Done (true, w') /\
    statsThreads w' = statsThreads worldAB.
Proof.
  assert (exists w',
             runReadStream (fun lbl => lbl) ["app"] rev2 0%nat
               {| opened := None; ticks := [failedInspect; goodTick] |}
               worldAB = Done (true, w')) as [w' Hrun]
    by (eexists; vm_compute; reflexivity).
  exists w'. split; [exact Hrun|].
  pose proof (runReadStream_rev2_registry (fun lbl => lbl) ["app"] 0%nat
                [failedInspect; goodTick]
                (startedMonitor idA) worldAB w' true
                eq_refl eq_refl eq_refl Hrun) as [_ H].
  exact H.
Defined.

(** ** The scrape labels of the setting *)

(** X14. The labels of [getLabels] for the setting [DOCKER_STATS_LABELS_SCRAPE]
    (after [TrimSpace]): "id" and "name" followed by the comma-separated
    fields in order.  A field alone yields itself, normalised for the vector
    names; empty fields, as in the empty setting or between two commas, are
    skipped; the fields of two settings joined by a comma are those of the
    first followed by those of the second. *)
Theorem getLabels_of_setting (normalizeLabel : string -> string)
    (normalize : bool) :
  getLabels normalizeLabel (strings_Split "" ","%char) normalize
  = ["id"; "name"] /\
  (forall field,
      field <> "" -> contains ","%char field = false ->
      getLabels normalizeLabel (strings_Split field ","%char) normalize
      = ["id"; "name"; if normalize then normalizeLabel field else field]) /\
  (forall a b,
      getLabels normalizeLabel (strings_Split (a ++ String ","%char b) ","%char)
        normalize
      = getLabels normalizeLabel (strings_Split a ","%char) normalize
        ++ drop 2 (getLabels normalizeLabel (strings_Split b ","%char)
                     normalize)) /\
  (forall setting,
      "" ∉ getLabels normalizeLabel (strings_Split setting ","%char) false).
Proof.
  unfold getLabels. split; [reflexivity|]. split; [|split].
  - intros field Hne Hc. rewrite (strings_Split_word _ _ Hc).
    rewrite filter_cons_True by exact Hne. reflexivity.
  - intros a b. rewrite strings_Split_app, filter_app, map_app.
    cbn [app drop]. reflexivity.
  - intros setting Hin. cbn [app] in Hin.
    apply elem_of_cons in Hin as [Hin|Hin]; [discriminate|].
    apply elem_of_cons in Hin as [Hin|Hin]; [discriminate|].
    rewrite map_id in Hin.
    apply list_elem_of_filter in Hin as [Hne _]. apply Hne. reflexivity.
Qed.

Lemma getLabels_of_setting_witness :
  getLabels (fun lbl => lbl) (strings_Split "app,,tier" ","%char) false
  = ["id"; "name"; "app"; "tier"].
Proof.
  destruct (getLabels_of_setting (fun lbl => lbl) false)
    as (Hempty & Hfield & Happ & _).
  change (strings_Split "app,,tier" ","%char)
    with (strings_Split ("app" ++ String ","%char
                           ("" ++ String ","%char "tier")) ","%char).
  rewrite !Happ, Hempty.
  rewrite (Hfield "app"), (Hfield "tier");
    first [reflexivity | discriminate].
Defined.

(** ** Short ids in the cycle *)

Lemma startMonitor_short (cont : Container) (w : World) :
  statsThreads w !! ID cont = None ->
  starts cont = true ->
  (String.length (ID cont) < 12)%nat ->
  startMonitor cont w = Panic "slice bounds out of range".
Proof.
  intros Hreg Hst Hshort.
  unfold startMonitor, ThreadList.Put, ThreadList.Exists, slice, starts in *.
  prog_unfold.
  destruct (Nat.leb_spec 12 (String.length (ID cont))) as [Hle|_]; [lia|].
  cbn. rewrite Hreg.
  rewrite bool_decide_eq_false_2 by (apply is_Some_None).
  rewrite lookup_insert_eq.
  change {| Id := ID cont; Name := ""; Labels := ∅; cli := None;
            stop := false;
            OnStatRead := Some clb_containerStatisticRead;
            OnRemove := Some clb_containerStopped |}
    with (newMonitor (ID cont)).
  destruct (Exec (daemon cont) (newMonitor (ID cont))) as [[[e|] m'] evs];
    [discriminate|].
  cbn. rewrite Hreg.
  rewrite bool_decide_eq_false_2 by (apply is_Some_None). reflexivity.
Qed.

Lemma forEach_startMonitor_short (l : list Container) (cont : Container) :
  forall w,
  cont ∈ l ->
  statsThreads w !! ID cont = None ->
  starts cont = true ->
  (String.length (ID cont) < 12)%nat ->
  forEach l startMonitor w = Panic "slice bounds out of range".
Proof.
  induction l as [|c l IH]; intros w Hin Hreg Hst Hshort.
  - apply elem_of_nil in Hin. contradiction.
  - cbn [forEach]. rewrite Prog_bind_unfold.
    apply elem_of_cons in Hin as [<-|Hin].
    { rewrite startMonitor_short by assumption. reflexivity. }
    destruct (startMonitor c w) as [[[] w1]|msg] eqn:Hc.
    + apply (IH w1 Hin); [|assumption..].
      destruct (startMonitor_step _ _ _ Hc)
        as [(-> & _)|(Hnone & Hsc & _ & m' & _ & -> & _)]; [exact Hreg|].
      rewrite lookup_insert_ne; [exact Hreg|].
      intros Heq.
      assert (Hlen : String.length (ID c) = String.length (ID cont))
        by (rewrite Heq; reflexivity).
      rewrite startMonitor_short in Hc; [discriminate|assumption..|lia].
    + clear IH. revert Hc.
      unfold startMonitor, ThreadList.Put, ThreadList.Exists, slice.
      prog_unfold.
      generalize (Nat.leb 12 (String.length (ID c))). intros long. cbn.
      case_bool_decide; [discriminate|].
      rewrite lookup_insert_eq.
      destruct (Exec _ _) as [[[e|] m'] evs]; cbn; [discriminate|].
      case_bool_decide; cbn; destruct long; cbn; congruence.
Qed.

(** X15. A cycle that lists a container with a non-registered id shorter
    than 12 characters whose monitor starts does not complete: the program
    panics on the slice of the id in the "Start monitoring" log line. *)
Theorem cycle_panics_on_short_id (containerList : list Container)
    (cont : Container) (w : World) :
  cont ∈ containerList ->
  statsThreads w !! ID cont = None ->
  starts cont = true ->
  (String.length (ID cont) < 12)%nat ->
  cycle (ok containerList) w = Panic "slice bounds out of range".
Proof.
  intros Hin Hreg Hst Hshort. unfold cycle.
  rewrite Prog_bind_unfold, Gauge_Set_unfold, Prog_bind_unfold.
  rewrite (forEach_startMonitor_short _ cont) by assumption.
  reflexivity.
Qed.

Lemma cycle_panics_on_short_id_witness :
  cycle (ok [containerA; {| ID := "abc"; daemon := daemonOk |}]) worldAB
  = Panic "slice bounds out of range".
Proof.
  apply (cycle_panics_on_short_id _ {| ID := "abc"; daemon := daemonOk |}).
  - right. left.
  - reflexivity.
  - reflexivity.
  - cbn. lia.
Defined.


(** ** Consistency of the program state *)

Lemma loop_stop_set (t : Tick) (ts : list Tick) (m : TContainerMonitor) :
  stop m = true ->
  Rev1.loop (t :: ts) m
  = (true, if stopRequested t then stopped m else m, []) /\
  Rev2.loop (t :: ts) m
  = (Rev2.Break, if stopRequested t then stopped m else m, []).
Proof.
  intros Hm.
  assert (Hs : stop (if stopRequested t then stopped m else m) = true).
  { destruct (stopRequested t); [apply stopped_fields|exact Hm]. }
  split; cbn [Rev1.loop Rev2.loop];
    rewrite bind_unfold, interleave_spec, bind_unfold; unfold get;
    rewrite Hs; reflexivity.
Qed.

Lemma readStream_Id (rev : Revision) (s : StatsSession)
    (m : TContainerMonitor) :
  rev = rev1 \/ rev = rev2 ->
  Id (snd (fst (readStream rev s m))) = Id m.
Proof.
  intros Hrev. destruct (stop m) eqn:Hm.
  2:{ destruct s as [[e|] ts];
        [destruct Hrev as [-> | ->]; reflexivity|].
      destruct (readStream_running_fields rev ts m Hrev Hm)
        as (m1 & -> & Hid & _). exact Hid. }
  destruct s as [[e|] [|t ts]];
    try (destruct Hrev as [-> | ->]; reflexivity).
  destruct (loop_stop_set t ts m Hm) as [H1 H2].
  assert (Hid : Id (if stopRequested t then stopped m else m) = Id m).
  { destruct (stopRequested t); [apply stopped_fields|reflexivity]. }
  destruct Hrev as [-> | ->]; cbn [readStream rev1 rev2];
    unfold Rev1.readStream, Rev2.readStream; cbn [opened ticks];
    rewrite bind_unfold; rewrite ?H1, ?H2;
    rewrite bind_unfold, notify_removed_spec; exact Hid.
Qed.

Lemma containerStopped_consistent (rev : Revision) (containerId : string)
    (w w' : World) :
  rev = rev1 \/ rev = rev2 ->
  consistent w ->
  containerStopped rev containerId w = Done (tt, w') ->
  consistent w'.
Proof.
  intros Hrev Hc H.
  assert (Hlong : (12 <= String.length containerId)%nat).
  { destruct (Nat.le_gt_cases 12 (String.length containerId)) as [Hle|Hlt];
      [exact Hle|].
    rewrite containerStopped_short in H by exact Hlt. discriminate. }
  destruct (statsThreads w !! containerId) as [th|] eqn:Hreg.
  - destruct (Hc _ _ Hreg) as (m & Hm & Hi).
    destruct (containerStopped_registered rev containerId th m w
                Hrev Hlong Hreg Hm) as (w1 & Hh1 & Hr1 & _ & Heq).
    rewrite Heq in H.
    destruct (deleteLabeledMetric_effect _ _ _ _ H) as (Hh & Hr & _).
    intros id' th'. rewrite Hr, Hr1, Hh, Hh1. intros Hid'.
    apply lookup_delete_Some in Hid' as [Hne Hid'].
    destruct (Hc _ _ Hid') as (m0 & Hm0 & Hi0).
    exists m0. split; [|exact Hi0].
    rewrite lookup_insert_ne; [exact Hm0|].
    intros <-. apply Hne. congruence.
  - rewrite containerStopped_unregistered in H by assumption.
    injection H as <-. exact Hc.
Qed.

Lemma handle_consistent (normalizeLabel : string -> string)
    (labelFields : list string) (rev : Revision) (e : Event) (w w' : World) :
  rev = rev1 \/ rev = rev2 ->
  consistent w ->
  handle normalizeLabel labelFields rev e w = Done (tt, w') ->
  consistent w'.
Proof.
  intros Hrev Hc.
  destruct e as [text er|[] stat|[] id|]; cbn [handle]; intros H.
  - injection H as <-. exact Hc.
  - apply containerStatisticRead_frame in H as (Hh & Hr & _).
    intros id th. rewrite Hr, Hh. apply Hc.
  - apply (containerStopped_consistent _ _ _ _ Hrev Hc H).
  - injection H as <-. exact Hc.
Qed.

(** X16. The handlers keep the program state consistent, in either
    revision: after a completed [containerStopped], and after a completed
    read-loop task with all the callbacks it made, every registered handle
    still points to a monitor object of the registered id. *)
Theorem handlers_keep_consistent (normalizeLabel : string -> string)
    (labelFields : list string) (rev : Revision) (w w' : World) :
  rev = rev1 \/ rev = rev2 ->
  consistent w ->
  (forall containerId,
      containerStopped rev containerId w = Done (tt, w') -> consistent w') /\
  (forall th s r,
      runReadStream normalizeLabel labelFields rev th s w = Done (r, w') ->
      consistent w').
Proof.
  intros Hrev Hc. split.
  - intros containerId. apply containerStopped_consistent; assumption.
  - intros th s r. unfold runReadStream.
    rewrite Prog_bind_unfold. cbn [getW].
    destruct (heap w !! th) as [m|] eqn:Hm; [|discriminate].
    pose proof (readStream_Id rev s m Hrev) as Hid.
    destruct (readStream rev s m) as [[returned m'] evs]. cbn [fst snd] in Hid.
    intros H.
    apply Prog_bind_Done in H as ([] & w1 & H1 & H).
    apply Prog_bind_Done in H as ([] & w2 & H2 & H).
    injection H as _ <-.
    unfold modifyW in H1. injection H1 as <-.
    apply (forEach_preserves (fun w w' => consistent w -> consistent w')
             (handle normalizeLabel labelFields rev)
             (fun _ Ha => Ha)
             (fun _ _ _ Hab Hbc Ha => Hbc (Hab Ha))
             (fun e wa wb He Ha =>
                handle_consistent _ _ _ _ _ _ Hrev Ha He)
             _ _ _ H2).
    intros id th' Hid'. cbn [statsThreads heap set_output set_heap] in *.
    destruct (Hc _ _ Hid') as (m0 & Hm0 & Hi0).
    destruct (decide (th' = th)) as [->|Hne].
    + rewrite lookup_insert_eq. exists m'. split; [reflexivity|].
      congruence.
    + rewrite lookup_insert_ne by congruence. eauto.
Qed.

Lemma consistent_worldAB : consistent worldAB.
Proof.
  intros id th. unfold worldAB. cbn [statsThreads heap]. intros H.
  apply lookup_insert_Some in H as [[<- <-]|[_ H]];
    [rewrite lookup_insert_eq; eauto|].
  apply lookup_insert_Some in H as [[<- <-]|[_ H]];
    [|rewrite lookup_empty in H; discriminate].
  rewrite lookup_insert_ne by discriminate.
  rewrite lookup_insert_eq. eauto.
Qed.

Lemma handlers_keep_consistent_witness :
  exists w',
    runReadStream (fun lbl => lbl) ["app"] rev2 0%nat
      {| opened := None; ticks := [failedInspect; goodTick] |}
      worldAB = Done (true, w') /\
    consistent w'.
Proof.
  assert (exists w',
             runReadStream (fun lbl => lbl) ["app"] rev2 0%nat
               {| opened := None; ticks := [failedInspect; goodTick] |}
               worldAB = Done (true, w')) as [w' Hrun]
    by (eexists; vm_compute; reflexivity).
  exists w'. split; [exact Hrun|].
  destruct (handlers_keep_consistent (fun lbl => lbl) ["app"] rev2
              worldAB w' (or_intror eq_refl) consistent_worldAB) as [_ H].
  apply (H _ _ _ Hrun).
Defined.
